(** * Section generator: configuration analyzer and artifact generator

    A shallow embedding of [section-generator.py] (classes
    [SectionTypeAnalyzer] and [SectionGenerator]) and the properties of its
    configuration-intelligence engine.

    Modelling conventions.
    - Values that come out of the JSON catalog are dynamically typed in the
      source, so they are kept dynamically typed here ([pyval]); every
      operation that Python may reject at run time returns a [result] and
      names the exception it raises.
    - Python dictionaries keep insertion order, so a dictionary is an
      association list; lookup takes the first entry with an equal key and
      assignment replaces that entry in place or appends a new one.
    - JSON numbers are restricted to integers. A string is the sequence of
      the bytes of its UTF-8 encoding: [len], iteration and slices count code
      points, not bytes. [str.title] is Python's on ASCII strings, where the
      cased characters are the 52 letters; it leaves every other byte as it
      is, which is not what Python does to a cased character outside ASCII.
      The theorems that state the value of a title assume [Py.ascii_only].
    - The catalog document has the shape its consumers expect: an object
      whose [sectionTypes] member maps type names to profile objects. What a
      profile holds is not constrained. JSON text of another shape (an
      array at the top level, a [sectionTypes] that is no object, a profile
      that is no object) is outside the domain of the model.
    - The profile dictionaries of the catalog are objects of a store, because
      [_get_intelligent_config] copies one of them and then updates the copy in
      place. Everything nested in a profile is only ever read by the program
      and is therefore a plain value.
    - What [print] writes is not kept; the expressions it is given are
      evaluated. The file system is an oracle that answers each operation
      [save_section] asks of it. *)

From Stdlib Require Import ZArith String Ascii Lia.
From stdpp Require Import base option list strings gmap.

Local Open Scope Z_scope.

(* ================================================================== *)
(** * Python values, exceptions and the two effect monads *)
(* ================================================================== *)

Local Unset Elimination Schemes.

Inductive pyval : Type :=
| PNone
| PBool (b : bool)
| PInt (n : Z)
| PStr (s : string)
| PList (l : list pyval)
| PDict (d : list (pyval * pyval)).

Local Set Elimination Schemes.

Abbreviation pydict := (list (pyval * pyval)).

Coercion PStr : string >-> pyval.

(** [k :-> v] is one [key: value] entry of a dictionary display. *)
Notation "k :-> v" := (@pair pyval pyval k v) (at level 60, no associativity).

Inductive exn : Type :=
| KeyError (key : pyval)
| AttributeError (attr : string)
| TypeError (msg : string)
| UnicodeDecodeError
| DanglingRef (l : nat).   (* the store has no object there; not a Python exception *)

Inductive result (A : Type) : Type :=
| Ok (a : A)
| Raise (e : exn).

Arguments Ok {A} a.
Arguments Raise {A} e.

#[global] Instance result_ret : MRet result := fun A a => Ok a.

#[global] Instance result_bind : MBind result := fun A B f r =>
  match r with
  | Ok a => f a
  | Raise e => Raise e
  end.

Definition is_ok {A} (r : result A) : bool :=
  match r with Ok _ => true | Raise _ => false end.

(** The store of dictionary objects: a reference is an index. *)
Abbreviation loc := nat.
Abbreviation heap := (list pydict).

(** Computations that read and write the store and may raise. A raised
    exception keeps the writes done before it. *)
Definition M (A : Type) : Type := heap -> result A * heap.

#[global] Instance M_ret : MRet M := fun A a h => (Ok a, h).

#[global] Instance M_bind : MBind M := fun A B f m h =>
  match m h with
  | (Ok a, h') => f a h'
  | (Raise e, h') => (Raise e, h')
  end.

Definition lift {A} (r : result A) : M A := fun h => (r, h).

Definition deref (l : loc) : M pydict := fun h =>
  match h !! l with
  | Some d => (Ok d, h)
  | None => (Raise (DanglingRef l), h)
  end.

Definition alloc (d : pydict) : M loc := fun h => (Ok (length h), h ++ [d]).

Definition store (l : loc) (d : pydict) : M unit := fun h => (Ok tt, <[l := d]> h).

(** [for x in xs: state = body(state, x)] *)
Fixpoint for_each {A S} (body : S -> A -> result S) (xs : list A) (s : S)
    : result S :=
  match xs with
  | [] => Ok s
  | x :: xs' => s' ← body s x; for_each body xs' s'
  end.

(** [[x for x in xs if keep(x)]] *)
Fixpoint comprehension {A} (keep : A -> result bool) (xs : list A)
    : result (list A) :=
  match xs with
  | [] => Ok []
  | x :: xs' =>
      b ← keep x;
      rest ← comprehension keep xs';
      Ok (if b : bool then x :: rest else rest)
  end.

(* ================================================================== *)
(** * The Python operations the program uses *)
(* ================================================================== *)

Module Py.

(** ** Truth value, [len], iteration *)

Definition truthy (v : pyval) : bool :=
  match v with
  | PNone => false
  | PBool b => b
  | PInt n => negb (n =? 0)
  | PStr s => negb (String.eqb s "")
  | PList l => match l with [] => false | _ => true end
  | PDict d => match d with [] => false | _ => true end
  end.

(** A byte [10xxxxxx] continues the code point that an earlier byte
    started. *)
Definition is_continuation (c : ascii) : bool :=
  (128 <=? nat_of_ascii c)%nat && (nat_of_ascii c <? 192)%nat.

(** The number of code points of a string. *)
Fixpoint code_points (s : string) : nat :=
  match s with
  | EmptyString => 0%nat
  | String c s' =>
      ((if is_continuation c then 0 else 1) + code_points s')%nat
  end.

(** No byte of the string is outside ASCII. *)
Fixpoint ascii_only (s : string) : bool :=
  match s with
  | EmptyString => true
  | String c s' => (nat_of_ascii c <? 128)%nat && ascii_only s'
  end.

Definition len (v : pyval) : result Z :=
  match v with
  | PStr s => Ok (Z.of_nat (code_points s))
  | PList l => Ok (Z.of_nat (length l))
  | PDict d => Ok (Z.of_nat (length d))
  | _ => Raise (TypeError "object has no len()")
  end.

(** The characters of a string from the right: the continuation bytes met
    so far wait for the byte that starts their code point. *)
Fixpoint chars_from_right (s : string) : string * list pyval :=
  match s with
  | EmptyString => (EmptyString, [])
  | String c s' =>
      let '(waiting, characters) := chars_from_right s' in
      if is_continuation c then (String c waiting, characters)
      else (EmptyString, PStr (String c waiting) :: characters)
  end.

(** One string per code point. *)
Definition chars (s : string) : list pyval :=
  let '(waiting, characters) := chars_from_right s in
  match waiting with
  | EmptyString => characters
  | _ => PStr waiting :: characters
  end.

(** [for x in v]: the elements of a list, the keys of a dictionary, the
    characters of a string. *)
Definition iter (v : pyval) : result (list pyval) :=
  match v with
  | PList l => Ok l
  | PDict d => Ok (map fst d)
  | PStr s => Ok (chars s)
  | _ => Raise (TypeError "object is not iterable")
  end.

(** ** Dictionaries *)

Definition hashable (k : pyval) : bool :=
  match k with
  | PList _ | PDict _ => false
  | _ => true
  end.

Definition key_num (k : pyval) : option Z :=
  match k with
  | PBool b => Some (if b then 1 else 0)
  | PInt n => Some n
  | _ => None
  end.

(** Equality of dictionary keys: [True == 1] and [False == 0]. *)
Definition key_eqb (a b : pyval) : bool :=
  match a, b with
  | PNone, PNone => true
  | PStr s, PStr t => String.eqb s t
  | _, _ =>
      match key_num a, key_num b with
      | Some m, Some n => m =? n
      | _, _ => false
      end
  end.

Fixpoint dict_get (k : pyval) (d : pydict) : option pyval :=
  match d with
  | [] => None
  | (k', v) :: d' => if key_eqb k k' then Some v else dict_get k d'
  end.

(** [d[k] = v] on a dictionary object *)
Fixpoint dict_set (k v : pyval) (d : pydict) : pydict :=
  match d with
  | [] => [(k, v)]
  | (k', v') :: d' =>
      if key_eqb k k' then (k', v) :: d' else (k', v') :: dict_set k v d'
  end.

(** [d[k] = v] for a key computed at run time *)
Definition setitem (d : pydict) (k v : pyval) : result pydict :=
  if hashable k then Ok (dict_set k v d)
  else Raise (TypeError "unhashable type").

(** [v is None] *)
Definition is_none (v : pyval) : bool :=
  match v with PNone => true | _ => false end.

(** [d.update(items)] *)
Definition dict_update (d items : pydict) : pydict :=
  fold_left (fun acc kv => dict_set kv.1 kv.2 acc) items d.

(** [d.get(k, dflt)] for a dictionary [d] *)
Definition dget (d : pydict) (k dflt : pyval) : pyval :=
  default dflt (dict_get k d).

(** [k in d] for a dictionary [d] *)
Definition dmem (k : pyval) (d : pydict) : bool :=
  match dict_get k d with Some _ => true | None => false end.

(** [o.get(k, dflt)]: only dictionaries have the method. *)
Definition get (o k dflt : pyval) : result pyval :=
  match o with
  | PDict d =>
      if hashable k then Ok (dget d k dflt)
      else Raise (TypeError "unhashable type")
  | _ => Raise (AttributeError "get")
  end.

(** [o[k]] for a string key [k] *)
Definition getitem (o : pyval) (k : string) : result pyval :=
  match o with
  | PDict d =>
      match dict_get k d with
      | Some v => Ok v
      | None => Raise (KeyError k)
      end
  | PList _ | PStr _ => Raise (TypeError "indices must be integers")
  | _ => Raise (TypeError "object is not subscriptable")
  end.

Definition is_str (v : pyval) (s : string) : bool :=
  match v with
  | PStr t => String.eqb t s
  | _ => false
  end.

Fixpoint is_substring (s t : string) : bool :=
  String.prefix s t
  || match t with
     | EmptyString => false
     | String _ t' => is_substring s t'
     end.

(** [k in o] for a string [k] *)
Definition contains (k : string) (o : pyval) : result bool :=
  match o with
  | PDict d => Ok (dmem k d)
  | PList l => Ok (existsb (fun x => is_str x k) l)
  | PStr s => Ok (is_substring k s)
  | _ => Raise (TypeError "argument is not iterable")
  end.

(** ** [+] and [list.extend] *)

Definition add (a b : pyval) : result pyval :=
  match a, b with
  | PList l, PList l' => Ok (PList (l ++ l'))
  | PStr s, PStr s' => Ok (PStr (s +:+ s'))
  | _, _ =>
      match key_num a, key_num b with
      | Some m, Some n => Ok (PInt (m + n))
      | _, _ => Raise (TypeError "unsupported operand type(s) for +")
      end
  end.

Definition extend (a b : pyval) : result pyval :=
  match a with
  | PList l => xs ← iter b; Ok (PList (l ++ xs))
  | _ => Raise (AttributeError "extend")
  end.

(** ** Strings *)

Definition is_lower (c : ascii) : bool :=
  (97 <=? nat_of_ascii c)%nat && (nat_of_ascii c <=? 122)%nat.

Definition is_upper (c : ascii) : bool :=
  (65 <=? nat_of_ascii c)%nat && (nat_of_ascii c <=? 90)%nat.

Definition to_upper (c : ascii) : ascii :=
  if is_lower c then ascii_of_nat (nat_of_ascii c - 32) else c.

Definition to_lower (c : ascii) : ascii :=
  if is_upper c then ascii_of_nat (nat_of_ascii c + 32) else c.

(** [s.title()]: a cased character is upper-cased when the character before
    it is not cased, and lower-cased when it is. The cased characters are
    the ASCII letters: this is [str.title] on the strings of [ascii_only]. *)
Fixpoint title_from (previous_is_cased : bool) (s : string) : string :=
  match s with
  | EmptyString => EmptyString
  | String c s' =>
      if is_lower c || is_upper c
      then String (if previous_is_cased then to_lower c else to_upper c)
                  (title_from true s')
      else String c (title_from false s')
  end.

Definition title (s : string) : string := title_from false s.

(** [s.replace(a, b)] for one-character [a] and [b] *)
Fixpoint replace_char (a b : ascii) (s : string) : string :=
  match s with
  | EmptyString => EmptyString
  | String c s' =>
      String (if Ascii.eqb c a then b else c) (replace_char a b s')
  end.

(** [v.replace(a, b)]: only strings have the method. *)
Definition replace (v : pyval) (a b : ascii) : result string :=
  match v with
  | PStr s => Ok (replace_char a b s)
  | _ => Raise (AttributeError "replace")
  end.

(** ** Slices and [str.join] *)

(** The first [n] code points of a string. *)
Fixpoint string_take (n : nat) (s : string) : string :=
  match s with
  | EmptyString => EmptyString
  | String c s' =>
      if is_continuation c then String c (string_take n s')
      else match n with
           | O => EmptyString
           | S n' => String c (string_take n' s')
           end
  end.

(** [v[:n]]: the first [n] elements of a list, the first [n] characters of
    a string. A slice is no key of a dictionary ([TypeError] up to Python
    3.11, [KeyError] from 3.12 on; the model takes the former). *)
Definition slice_to (v : pyval) (n : nat) : result pyval :=
  match v with
  | PList l => Ok (PList (take n l))
  | PStr s => Ok (PStr (string_take n s))
  | PDict _ => Raise (TypeError "unhashable type")
  | _ => Raise (TypeError "object is not subscriptable")
  end.

(** [sep.join(v)]: every element must be a string. *)
Definition join (sep : string) (v : pyval) : result string :=
  items ← iter v;
  for_each
    (fun joined item =>
       match item with
       | PStr s =>
           Ok (match joined with
               | None => Some s
               | Some j => Some (j +:+ sep +:+ s)
               end)
       | _ => Raise (TypeError "sequence item: expected str instance")
       end)
    items None
  ≫= fun joined => Ok (default "" joined).

End Py.

(* ================================================================== *)
(** * class SectionTypeAnalyzer *)
(* ================================================================== *)

Module SectionTypeAnalyzer.

(** The catalog document, of the shape its consumers expect: a top-level
    object whose optional member [sectionTypes] maps a type name to a profile
    object, and whose optional member [intelligenceRules] is not used. *)
Record config_document : Type := {
  sectionTypes : option (list (string * pydict));
  intelligenceRules : option pyval
}.

(** What [open(self.config_path, 'r', encoding='utf-8')] followed by
    [json.load(f)] does: the file is missing, or its text is not JSON, or
    another exception is raised (the path is a directory, the bytes are not
    UTF-8 and reading them raises [UnicodeDecodeError], ...), or the
    document is parsed. *)
Inductive read_outcome : Type :=
| FileNotFoundError
| JSONDecodeError
| OtherFailure (e : exn)
| Loaded (doc : config_document).

Record self : Type := {
  config_path : string;
  intelligence_config : config_document;
  section_types : gmap string loc     (* type name |-> profile object *)
}.

Definition _load_intelligence_config
    (files : string -> read_outcome) (config_path : string)
    : result config_document :=
  match files config_path with
  | Loaded doc => Ok doc
  | FileNotFoundError =>
      Ok {| sectionTypes := Some []; intelligenceRules := Some (PDict []) |}
  | JSONDecodeError =>
      Ok {| sectionTypes := Some []; intelligenceRules := Some (PDict []) |}
  | OtherFailure e => Raise e
  end.

(** The profile objects of the document are created in the store, in
    document order; a repeated name keeps the last one. *)
Fixpoint store_profiles (profiles : list (string * pydict))
    (acc : gmap string loc) : M (gmap string loc) :=
  match profiles with
  | [] => mret acc
  | (name, profile) :: rest =>
      l ← alloc profile;
      store_profiles rest (<[name := l]> acc)
  end.

Definition __init__ (files : string -> read_outcome) (config_path : string)
    : M self :=
  intelligence_config ← lift (_load_intelligence_config files config_path);
  section_types ←
    store_profiles (default [] (sectionTypes intelligence_config)) ∅;
  mret {| config_path := config_path;
          intelligence_config := intelligence_config;
          section_types := section_types |}.

Definition _get_default_for_type (setting_type : pyval) : result pyval :=
  let defaults : pydict :=
    [ "text" :-> "Default text";
      "textarea" :-> "Default description";
      "color" :-> "#000000";
      "image_picker" :-> PNone;
      "url" :-> "/";
      "checkbox" :-> PBool false;
      "range" :-> PInt 50;
      "select" :-> "" ] in
  Py.get (PDict defaults) setting_type "Default value".

Definition _normalize_setting (setting : pyval) : result pyval :=
  (* the dictionary display, entry by entry *)
  type_ ← Py.get setting "type" "text";
  name_ ← Py.get setting "name" "setting";
  id_ ← Py.get setting "id" name_;
  raw_id ← Py.getitem setting "id";
  spaced ← Py.replace raw_id "_" " ";
  label ← Py.get setting "label" (Py.title spaced);
  type_for_default ← Py.get setting "type" "text";
  default_for_type ← _get_default_for_type type_for_default;
  default_ ← Py.get setting "default" default_for_type;
  required ← Py.get setting "required" (PBool false);
  info ← Py.get setting "info" "";
  category ← Py.get setting "category" "recommended";
  let normalized : pydict :=
    [ "type" :-> type_;
      "id" :-> id_;
      "label" :-> label;
      "default" :-> default_;
      "required" :-> required;
      "info" :-> info;
      "category" :-> category ] in
  (* options for select fields *)
  type_1 ← Py.get setting "type" PNone;
  has_options ←
    (if Py.is_str type_1 "select" then Py.contains "options" setting
     else Ok false);
  normalized ←
    (if has_options : bool
     then options ← Py.getitem setting "options";
          Ok (Py.dict_set "options" options normalized)
     else Ok normalized) : result pydict;
  (* range constraints *)
  type_2 ← Py.get setting "type" PNone;
  normalized ←
    (if Py.is_str type_2 "range"
     then min_ ← Py.get setting "min" (PInt 0);
          max_ ← Py.get setting "max" (PInt 100);
          unit_ ← Py.get setting "unit" "";
          Ok (Py.dict_update normalized
                [ "min" :-> min_; "max" :-> max_; "unit" :-> unit_ ])
     else Ok normalized) : result pydict;
  (* validation rules *)
  has_validation ← Py.contains "validation" setting;
  normalized ←
    (if has_validation : bool
     then validation ← Py.getitem setting "validation";
          Ok (Py.dict_set "validation" validation normalized)
     else Ok normalized) : result pydict;
  Ok (PDict normalized).

(** One of the three loops of [_organize_settings]. *)
Definition normalize_all (raw : pyval) : result (list pyval) :=
  settings ← Py.iter raw;
  mapM _normalize_setting settings.

Definition _organize_settings (section_config : pydict) : result pydict :=
  essential ←
    normalize_all (Py.dget section_config "essentialSettings" (PList []));
  recommended ←
    normalize_all (Py.dget section_config "recommendedSettings" (PList []));
  advanced ←
    normalize_all (Py.dget section_config "advancedSettings" (PList []));
  Ok [ "essential" :-> PList essential;
       "recommended" :-> PList recommended;
       "advanced" :-> PList advanced ].

Definition _calculate_intelligence_score (section_config : pydict)
    : result Z :=
  let score := 0 in
  let score :=
    if Py.truthy (Py.dget section_config "essentialSettings" PNone)
    then score + 30 else score in
  let score :=
    if Py.truthy (Py.dget section_config "recommendedSettings" PNone)
    then score + 25 else score in
  advanced_count ←
    Py.len (Py.dget section_config "advancedSettings" (PList []));
  let score :=
    if 0 <? advanced_count
    then score + Z.min (advanced_count * 5) 20 else score in
  let score :=
    if Py.truthy (Py.dget section_config "suggestedBlocks" PNone)
    then score + 15 else score in
  let score :=
    if Py.truthy (Py.dget section_config "commonUseCases" PNone)
    then score + 10 else score in
  Ok (Z.min score 100).

Definition _get_optimization_tips (section_type : string) : list pyval :=
  if String.eqb section_type "hero" then
    [ PStr "Use high-quality background images for better visual impact";
      PStr "Keep heading text concise and compelling";
      PStr "Consider adding a secondary CTA button for better conversion" ]
  else if String.eqb section_type "features" then
    [ PStr "Use consistent icon styles across all features";
      PStr "Limit features to 3-6 for better readability";
      PStr "Add hover effects to increase interactivity" ]
  else if String.eqb section_type "testimonials" then
    [ PStr "Include customer photos for authenticity";
      PStr "Use varied testimonial lengths for visual interest";
      PStr "Consider adding company logos for B2B credibility" ]
  else if String.eqb section_type "gallery" then
    [ PStr "Optimize images for web to improve loading speed";
      PStr "Use consistent aspect ratios for better grid layout";
      PStr "Add alt text for better accessibility" ]
  else [].

Definition _get_generic_config (section_type : string) : pydict :=
  [ "description" :-> ("Custom " +:+ section_type +:+ " section");
    "essentialSettings" :-> PList
      [ PDict [ "id" :-> "heading";
                "type" :-> "text";
                "label" :-> "Section Heading";
                "default" :-> (Py.title section_type +:+ " Section") ] ];
    "recommendedSettings" :-> PList
      [ PDict [ "id" :-> "background_color";
                "type" :-> "color";
                "label" :-> "Background Color";
                "default" :-> "#ffffff" ];
        PDict [ "id" :-> "text_color";
                "type" :-> "color";
                "label" :-> "Text Color";
                "default" :-> "#000000" ] ];
    "advancedSettings" :-> PList
      [ PDict [ "id" :-> "animation";
                "type" :-> "select";
                "label" :-> "Animation Effect";
                "options" :-> PList
                  [ PDict [ "value" :-> "none"; "label" :-> "None" ];
                    PDict [ "value" :-> "fadeIn"; "label" :-> "Fade In" ] ];
                "default" :-> "fadeIn" ] ];
    "suggestedBlocks" :-> PList [];
    "intelligent_settings" :-> PDict
      [ "essential" :-> PList [];
        "recommended" :-> PList [];
        "advanced" :-> PList [] ];
    "intelligence_score" :-> PInt 25;
    "optimization_tips" :-> PList
      [ PStr "Consider adding more specific settings for better customization" ] ].

(** [self.section_types[section_type]] *)
Definition profile_of (this : self) (section_type : string) : result loc :=
  match section_types this !! section_type with
  | Some l => Ok l
  | None => Raise (KeyError section_type)
  end.

(** [section_config] is the reference to the copy; the value returned is what
    that object holds once it has been updated. Between the copy and the
    update the object is only read, so it is read once. *)
Definition _get_intelligent_config (this : self) (section_type : string)
    : M pydict :=
  profile ← lift (profile_of this section_type);
  original ← deref profile;
  section_config ← alloc original;                       (* .copy() *)
  current ← deref section_config;
  organized_settings ← lift (_organize_settings current);
  essential ← lift (Py.getitem (PDict organized_settings) "essential");
  recommended ← lift (Py.getitem (PDict organized_settings) "recommended");
  suggested_settings ← lift (Py.add essential recommended);
  advanced ← lift (Py.getitem (PDict organized_settings) "advanced");
  intelligence_score ← lift (_calculate_intelligence_score current);
  store section_config
    (Py.dict_update current
       [ "intelligent_settings" :-> PDict organized_settings;
         "suggested_settings" :-> suggested_settings;
         "advanced_settings" :-> advanced;
         "suggested_blocks" :-> Py.dget current "suggestedBlocks" (PList []);
         "intelligence_score" :-> PInt intelligence_score;
         "optimization_tips" :-> PList (_get_optimization_tips section_type) ]);;
  deref section_config.

Definition analyze_section_type (this : self) (section_type : string)
    : M pydict :=
  if bool_decide (is_Some (section_types this !! section_type))
  then _get_intelligent_config this section_type
  else mret (_get_generic_config section_type).

End SectionTypeAnalyzer.

(* ================================================================== *)
(** * The dataclasses and the generated text *)
(* ================================================================== *)

(** The long string literals returned by the template methods are named
    after the method that returns them; the artifacts are opaque text. *)
Inductive source_literal : Type :=
| hero_template | features_template | testimonials_template | generic_template
| hero_css | features_css | testimonials_css | generic_css
| hero_js | testimonials_js | generic_js.

Inductive fragment : Type :=
| Chars (s : string)             (* literal characters *)
| Newline
| DoubleQuote
| Str (v : pyval)                (* a value interpolated by an f-string *)
| JsonDumps (v : pyval)          (* json.dumps(v, indent=2) *)
| Literal (l : source_literal).

Definition text := list fragment.

Module SectionConfig.
Record t : Type := {
  name : string;
  type : string;
  description : pyval;
  settings : pyval;
  blocks : pyval;
  presets : pyval;
  intelligence_config : pydict
}.
End SectionConfig.

Module GeneratedSection.
Record t : Type := {
  liquid_content : text;
  css_content : text;
  js_content : text
}.
End GeneratedSection.

(** [if text:] for a generated string. A value interpolated by an f-string
    is empty only when it is the empty string; the literals of the source
    and the output of [json.dumps] are not empty. *)
Definition fragment_is_empty (f : fragment) : bool :=
  match f with
  | Chars s => String.eqb s ""
  | Str (PStr s) => String.eqb s ""
  | _ => false
  end.

Definition text_truthy (t : text) : bool := negb (forallb fragment_is_empty t).

(* ================================================================== *)
(** * The file system, as the program uses it *)
(* ================================================================== *)

(** A [pathlib] path, as the expression that builds it. *)
Inductive path : Type :=
| Path (s : string)
| Join (p : path) (name : string).      (* p / name *)

(** The operations [save_section] asks of the file system:
    [p.mkdir(exist_ok=True)], and [open(p, 'w')] with the one [write] under
    it. *)
Inductive fs_event : Type :=
| Mkdir (p : path)
| WriteFile (p : path) (content : text).

(** The file system decides, from what has been asked of it so far, whether
    an operation raises. *)
Definition file_system : Type := list fs_event -> fs_event -> option exn.

(** Computations that ask operations of the file system: the state is the
    list of the operations asked so far, the failed one included. *)
Definition IO (A : Type) : Type := list fs_event -> result A * list fs_event.

#[global] Instance IO_ret : MRet IO := fun A a asked => (Ok a, asked).

#[global] Instance IO_bind : MBind IO := fun A B f m asked =>
  match m asked with
  | (Ok a, asked') => f a asked'
  | (Raise e, asked') => (Raise e, asked')
  end.

Definition perform (fs : file_system) (event : fs_event) : IO unit :=
  fun asked =>
    match fs asked event with
    | None => (Ok tt, asked ++ [event])
    | Some e => (Raise e, asked ++ [event])
    end.

(* ================================================================== *)
(** * class SectionGenerator *)
(* ================================================================== *)

Module SectionGenerator.

Import SectionConfig.

Record self : Type := {
  theme_path : string;
  analyzer : SectionTypeAnalyzer.self
}.

Definition __init__ (files : string -> SectionTypeAnalyzer.read_outcome)
    (theme_path : string) : M self :=
  analyzer ← SectionTypeAnalyzer.__init__ files "section-intelligence-config.json";
  mret {| theme_path := theme_path; analyzer := analyzer |}.

Definition _get_preset_defaults (settings : pyval) : result pydict :=
  items ← Py.iter settings;
  for_each
    (fun defaults setting =>
       has_default ← Py.contains "default" setting;
       has_value ←
         (if has_default : bool
          then value ← Py.getitem setting "default";
               Ok (negb (Py.is_none value))
          else Ok false) : result bool;
       if has_value : bool
       then value ← Py.getitem setting "default";
            key ← Py.getitem setting "id";
            Py.setitem defaults key value
       else Ok defaults)
    items [].

(** [[s for s in settings if s.get('category') == category]] *)
Definition of_category (category : string) (settings : pyval)
    : result (list pyval) :=
  items ← Py.iter settings;
  comprehension
    (fun s => c ← Py.get s "category" PNone; Ok (Py.is_str c category))
    items.

Definition _generate_intelligent_schema (config : SectionConfig.t)
    : result pydict :=
  essential_settings ← of_category "essential" (settings config);
  recommended_settings ← of_category "recommended" (settings config);
  advanced_settings ← of_category "advanced" (settings config);
  preset_defaults ← _get_preset_defaults (settings config);
  let schema : pydict :=
    [ "name" :-> name config;
      "tag" :-> ("section-" +:+ type config);
      "class" :-> ("section-" +:+ type config);
      "settings" :-> PList (essential_settings ++ recommended_settings);
      "blocks" :-> blocks config;
      "presets" :-> PList
        [ PDict [ "name" :-> name config;
                  "category" :-> "Custom Sections";
                  "settings" :-> PDict preset_defaults ] ] ] in
  if Py.truthy (PList advanced_settings)
  then schema_settings ← Py.getitem (PDict schema) "settings";
       extended ← Py.extend schema_settings (PList advanced_settings);
       Ok (Py.dict_set "settings" extended schema)
  else Ok schema.

(** The methods of the class that take a [SectionConfig] and return a
    string: exactly the [def]s of the source. *)
Definition methods : list (string * (SectionConfig.t -> text)) :=
  [ ("_generate_hero_template", fun _ => [Literal hero_template]);
    ("_generate_features_template", fun _ => [Literal features_template]);
    ("_generate_testimonials_template", fun _ => [Literal testimonials_template]);
    ("_generate_generic_template", fun _ => [Literal generic_template]);
    ("_generate_hero_css", fun _ => [Literal hero_css]);
    ("_generate_features_css", fun _ => [Literal features_css]);
    ("_generate_testimonials_css", fun _ => [Literal testimonials_css]);
    ("_generate_generic_css", fun _ => [Literal generic_css]);
    ("_generate_hero_js", fun _ => [Literal hero_js]);
    ("_generate_testimonials_js", fun _ => [Literal testimonials_js]);
    ("_generate_generic_js", fun _ => [Literal generic_js]) ].

Fixpoint assoc {V} (key : string) (table : list (string * V)) : option V :=
  match table with
  | [] => None
  | (k, v) :: rest => if String.eqb key k then Some v else assoc key rest
  end.

(** [self.<attr>] for a method name *)
Definition getattr (attr : string) : result (SectionConfig.t -> text) :=
  match assoc attr methods with
  | Some method => Ok method
  | None => Raise (AttributeError attr)
  end.

(** A dictionary display [{key: self.<attr>, ...}], entries evaluated in
    order. *)
Definition dispatch_table (entries : list (string * string))
    : result (list (string * (SectionConfig.t -> text))) :=
  mapM (fun entry => method ← getattr entry.2; Ok (entry.1, method)) entries.

(** [table.get(config.type, self.<fallback>)(config)] *)
Definition dispatch (table : list (string * (SectionConfig.t -> text)))
    (fallback : string) (config : SectionConfig.t) : result text :=
  generic ← getattr fallback;
  Ok (default generic (assoc (type config) table) config).

Definition _generate_template_content (config : SectionConfig.t)
    : result text :=
  templates ← dispatch_table
    [ ("hero", "_generate_hero_template");
      ("features", "_generate_features_template");
      ("testimonials", "_generate_testimonials_template");
      ("gallery", "_generate_gallery_template");
      ("cta", "_generate_cta_template");
      ("contact", "_generate_contact_template");
      ("newsletter", "_generate_newsletter_template");
      ("stats", "_generate_stats_template") ];
  dispatch templates "_generate_generic_template" config.

Definition _generate_css (config : SectionConfig.t) : result text :=
  css_templates ← dispatch_table
    [ ("hero", "_generate_hero_css");
      ("features", "_generate_features_css");
      ("testimonials", "_generate_testimonials_css");
      ("gallery", "_generate_gallery_css");
      ("cta", "_generate_cta_css");
      ("contact", "_generate_contact_css");
      ("newsletter", "_generate_newsletter_css");
      ("stats", "_generate_stats_css") ];
  dispatch css_templates "_generate_generic_css" config.

Definition _generate_js (config : SectionConfig.t) : result text :=
  js_templates ← dispatch_table
    [ ("hero", "_generate_hero_js");
      ("testimonials", "_generate_testimonials_js");
      ("gallery", "_generate_gallery_js");
      ("contact", "_generate_contact_js");
      ("newsletter", "_generate_newsletter_js");
      ("stats", "_generate_stats_js") ];
  dispatch js_templates "_generate_generic_js" config.

Definition _generate_liquid (config : SectionConfig.t) : result text :=
  schema ← _generate_intelligent_schema config;
  template_content ← _generate_template_content config;
  (* the comment block with the intelligence metadata *)
  total ← Py.len (settings config);
  essential ← of_category "essential" (settings config);
  available ← Py.len (blocks config);
  let intelligence_info : text :=
    [ Newline; Chars "<!-- Section Intelligence Info:"; Newline;
      Chars "Type: "; Chars (type config); Newline;
      Chars "Intelligence Score: ";
      Str (Py.dget (intelligence_config config) "intelligence_score" (PInt 0));
      Chars "/100"; Newline;
      Chars "Settings: "; Str (PInt total); Chars " total (";
      Str (PInt (Z.of_nat (length essential))); Chars " essential)"; Newline;
      Chars "Blocks: "; Str (PInt available); Chars " available"; Newline;
      Chars "-->"; Newline; Newline ] in
  (* schema and template *)
  Ok (intelligence_info ++
      [ Chars "{%- capture section_settings -%}"; Newline;
        JsonDumps (PDict schema); Newline;
        Chars "{% endcapture -%}"; Newline; Newline;
        Chars "<script type="; DoubleQuote; Chars "application/json";
        DoubleQuote; Chars " data-section-type="; DoubleQuote;
        Chars (type config); DoubleQuote; Chars " data-section-settings>";
        Newline;
        Chars "  {{ section_settings | raw }}"; Newline;
        Chars "</script>"; Newline; Newline ] ++
      template_content).

(** The first half of [generate_section]: the analysis and the
    [SectionConfig] built from it. *)
Definition section_config_of (this : self) (section_name section_type : string)
    (description : pyval) (use_advanced : bool) : M SectionConfig.t :=
  analysis ←
    SectionTypeAnalyzer.analyze_section_type (analyzer this) section_type;
  let description :=
    if negb (Py.truthy description)
    then Py.dget analysis "description"
           ("Custom " +:+ section_type +:+ " section")
    else description in
  settings ← lift
    (if use_advanced && Py.dmem "intelligent_settings" analysis
     then intelligent_settings ←
            Py.getitem (PDict analysis) "intelligent_settings";
          essential ← Py.getitem intelligent_settings "essential";
          recommended ← Py.getitem intelligent_settings "recommended";
          settings ← Py.add essential recommended;
          if use_advanced
          then advanced ← Py.getitem intelligent_settings "advanced";
               Py.extend settings advanced
          else Ok settings
     else Ok (Py.dget analysis "suggested_settings" (PList [])));
  mret {| name := section_name;
          type := section_type;
          description := description;
          settings := settings;
          blocks := Py.dget analysis "suggested_blocks" (PList []);
          presets := PList [];
          intelligence_config := analysis |}.

Definition generate_section (this : self) (section_name section_type : string)
    (description : pyval) (use_advanced : bool) : M GeneratedSection.t :=
  config ←
    section_config_of this section_name section_type description use_advanced;
  liquid_content ← lift (_generate_liquid config);
  css_content ← lift (_generate_css config);
  js_content ← lift (_generate_js config);
  mret {| GeneratedSection.liquid_content := liquid_content;
          GeneratedSection.css_content := css_content;
          GeneratedSection.js_content := js_content |}.

(** The schema that [generate_section] assembles for a request, on its way
    through [_generate_liquid]. *)
Definition schema_of (this : self) (section_name section_type : string)
    (description : pyval) (use_advanced : bool) : M pydict :=
  config ←
    section_config_of this section_name section_type description use_advanced;
  lift (_generate_intelligent_schema config).

Definition save_section (fs : file_system) (this : self)
    (generated_section : GeneratedSection.t) (section_name : string)
    : IO unit :=
  let sections_dir := Join (Path (theme_path this)) "sections" in
  perform fs (Mkdir sections_dir);;
  let liquid_file := Join sections_dir (section_name +:+ ".liquid") in
  perform fs
    (WriteFile liquid_file (GeneratedSection.liquid_content generated_section));;
  let css_file := Join sections_dir (section_name +:+ ".css") in
  perform fs
    (WriteFile css_file (GeneratedSection.css_content generated_section));;
  if text_truthy (GeneratedSection.js_content generated_section)
  then
    let js_file := Join sections_dir (section_name +:+ ".js") in
    perform fs
      (WriteFile js_file (GeneratedSection.js_content generated_section))
  else mret tt.

End SectionGenerator.

(* ================================================================== *)
(** * main *)
(* ================================================================== *)

(** The command line once [argparse] has parsed it: [--description] is
    [None] when it is not given, [--advanced] is on unless [--no-advanced]
    is given. *)
Module Args.
Record t : Type := {
  name : string;
  type : string;
  description : pyval;
  theme_path : string;
  advanced : bool
}.
End Args.

(** How [main] ends: with the value it returns, or with the exception that
    leaves it. *)
Inductive exit : Type :=
| Return (code : Z)
| Uncaught (e : exn).

Definition valid_types : list string :=
  [ "hero"; "features"; "testimonials"; "gallery"; "cta"; "contact";
    "newsletter"; "stats" ].

(** [len(analysis.get('intelligent_settings', {}).get(tier, []))] *)
Definition count_of_tier (analysis : pydict) (tier : string) : result Z :=
  settings ← Py.get (Py.dget analysis "intelligent_settings" (PDict [])) tier
                (PList []);
  Py.len settings.

(** The [try] block of [main] up to the call of [save_section]: what is
    printed is not kept, the expressions that are printed are evaluated. *)
Definition main_analyze_and_generate
    (files : string -> SectionTypeAnalyzer.read_outcome)
    (generator : SectionGenerator.self) (args : Args.t)
    : M (pydict * GeneratedSection.t) :=
  analyzer ←
    SectionTypeAnalyzer.__init__ files "section-intelligence-config.json";
  analysis ←
    SectionTypeAnalyzer.analyze_section_type analyzer (Args.type args);
  _ ← lift (count_of_tier analysis "essential");
  _ ← lift (count_of_tier analysis "recommended");
  _ ← lift (if Args.advanced args
            then count_of_tier analysis "advanced" else Ok 0);
  _ ← lift (Py.len (Py.dget analysis "suggested_blocks" (PList [])));
  _ ← lift (if Py.truthy (Py.dget analysis "optimization_tips" PNone)
            then tips ← Py.getitem (PDict analysis) "optimization_tips";
                 shown ← Py.slice_to tips 3;
                 Py.iter shown
            else Ok []);
  generated_section ←
    SectionGenerator.generate_section generator (Args.name args)
      (Args.type args) (Args.description args) (Args.advanced args);
  mret (analysis, generated_section).

(** The [try] block after [save_section]. *)
Definition main_next_steps (analysis : pydict) : result unit :=
  if Py.truthy (Py.dget analysis "commonUseCases" PNone)
  then use_cases ← Py.getitem (PDict analysis) "commonUseCases";
       shown ← Py.slice_to use_cases 3;
       _ ← Py.join ", " shown;
       Ok tt
  else Ok tt.

(** [main()]: the store and the operations asked of the file system are
    threaded through; [except Exception] turns every exception of the [try]
    block into the return value 1. *)
Definition main (files : string -> SectionTypeAnalyzer.read_outcome)
    (fs : file_system) (args : Args.t) (h : heap) (asked : list fs_event)
    : exit * heap * list fs_event :=
  if negb (existsb (String.eqb (Args.type args)) valid_types)
  then (Return 1, h, asked)
  else
    match SectionGenerator.__init__ files (Args.theme_path args) h with
    | (Raise e, h1) => (Uncaught e, h1, asked)
    | (Ok generator, h1) =>
        match main_analyze_and_generate files generator args h1 with
        | (Raise _, h2) => (Return 1, h2, asked)
        | (Ok (analysis, generated_section), h2) =>
            match SectionGenerator.save_section fs generator
                    generated_section (Args.name args) asked with
            | (Raise _, asked') => (Return 1, h2, asked')
            | (Ok _, asked') =>
                match main_next_steps analysis with
                | Raise _ => (Return 1, h2, asked')
                | Ok _ => (Return 0, h2, asked')
                end
            end
        end
    end.

(* ================================================================== *)
(** * Reading a report *)
(* ================================================================== *)

(** The attributes of an intelligence report, read from the dictionary that
    [analyze_section_type] returns the way the program reads them. *)
Module Report.

(** [analysis['intelligent_settings'][tier]] *)
Definition organized (report : pydict) (tier : string) : result pyval :=
  intelligent_settings ← Py.getitem (PDict report) "intelligent_settings";
  Py.getitem intelligent_settings tier.

(** [analysis.get('suggested_settings', [])] *)
Definition suggested_settings (report : pydict) : pyval :=
  Py.dget report "suggested_settings" (PList []).

(** [analysis.get('suggested_blocks', [])] *)
Definition suggested_blocks (report : pydict) : pyval :=
  Py.dget report "suggested_blocks" (PList []).

(** [analysis.get('intelligence_score', 0)] *)
Definition score (report : pydict) : pyval :=
  Py.dget report "intelligence_score" (PInt 0).

(** [analysis.get('optimization_tips')] *)
Definition optimization_tips (report : pydict) : option pyval :=
  Py.dict_get "optimization_tips" report.

(** [s.get('category') == tier] for a descriptor [s] *)
Definition has_category (tier : string) (s : pyval) : bool :=
  match s with
  | PDict d => Py.is_str (Py.dget d "category" PNone) tier
  | _ => false
  end.

End Report.

(** What [_get_intelligent_config] computes from the content of the profile
    object: the content of the updated copy, or the exception. *)
Definition report_of_profile (section_type : string) (profile : pydict)
    : result pydict :=
  organized_settings ← SectionTypeAnalyzer._organize_settings profile;
  essential ← Py.getitem (PDict organized_settings) "essential";
  recommended ← Py.getitem (PDict organized_settings) "recommended";
  suggested_settings ← Py.add essential recommended;
  advanced ← Py.getitem (PDict organized_settings) "advanced";
  intelligence_score ← SectionTypeAnalyzer._calculate_intelligence_score profile;
  Ok (Py.dict_update profile
        [ "intelligent_settings" :-> PDict organized_settings;
          "suggested_settings" :-> suggested_settings;
          "advanced_settings" :-> advanced;
          "suggested_blocks" :-> Py.dget profile "suggestedBlocks" (PList []);
          "intelligence_score" :-> PInt intelligence_score;
          "optimization_tips" :->
            PList (SectionTypeAnalyzer._get_optimization_tips section_type) ]).

(** The score the scoring rule assigns to a profile whose five lists are
    given. *)
Definition score_rule (essential recommended advanced blocks use_cases
    : list pyval) : Z :=
  Z.min
    ((if essential is [] then 0 else 30)
     + (if recommended is [] then 0 else 25)
     + Z.min (5 * Z.of_nat (length advanced)) 20
     + (if blocks is [] then 0 else 15)
     + (if use_cases is [] then 0 else 10))
    100.

(** A profile field that is absent, or present and a list. *)
Definition list_field (profile : pydict) (key : string) (l : list pyval)
    : Prop :=
  match Py.dict_get key profile with
  | None => l = []
  | Some v => v = PList l
  end.

(* ================================================================== *)
(** * Sample catalogs *)
(* ================================================================== *)

Module Samples.

Import SectionTypeAnalyzer.

(** A profile whose settings carry the category of the list they are in. *)
Definition hero_profile : pydict :=
  [ "description" :-> "Hero banner";
    "essentialSettings" :-> PList
      [ PDict [ "id" :-> "heading_text"; "type" :-> "text";
                "category" :-> "essential" ];
        PDict [ "id" :-> "background_image"; "type" :-> "image_picker";
                "category" :-> "essential" ] ];
    "recommendedSettings" :-> PList
      [ PDict [ "id" :-> "overlay_color"; "type" :-> "color";
                "category" :-> "recommended" ] ];
    "advancedSettings" :-> PList
      [ PDict [ "id" :-> "height"; "type" :-> "range";
                "category" :-> "advanced" ] ];
    "suggestedBlocks" :-> PList [];
    "commonUseCases" :-> PList [ PStr "Homepage banner" ] ].

(** A profile whose settings do not say their category, or say another one
    than the list they are in. *)
Definition untagged_profile : pydict :=
  [ "essentialSettings" :-> PList
      [ PDict [ "id" :-> "title"; "type" :-> "text" ];
        PDict [ "id" :-> "parallax"; "type" :-> "checkbox";
                "category" :-> "advanced" ] ];
    "advancedSettings" :-> PList
      [ PDict [ "id" :-> "height"; "type" :-> "range" ] ] ].

(** A profile with a raw setting that has a [name] and a [label] but no
    [id]. *)
Definition profile_without_id : pydict :=
  [ "essentialSettings" :-> PList
      [ PDict [ "name" :-> "title"; "type" :-> "text";
                "label" :-> "Title" ] ] ].


Definition document (profile : pydict) : config_document :=
  {| sectionTypes := Some [ ("hero", profile) ]; intelligenceRules := None |}.

(** The analyzer that [__init__] builds from a catalog with the one type
    [hero], and the store it builds it in. *)
Definition analyzer (profile : pydict) : self :=
  {| config_path := "section-intelligence-config.json";
     intelligence_config := document profile;
     section_types := {[ "hero" := 0%nat ]} |}.

Definition objects (profile : pydict) : heap := [ profile ].

(** The analyzer of a missing catalog file. *)
Definition analyzer_without_catalog : self :=
  {| config_path := "section-intelligence-config.json";
     intelligence_config :=
       {| sectionTypes := Some []; intelligenceRules := Some (PDict []) |};
     section_types := ∅ |}.

(** What the analyzer reports for [hero_profile]. *)
Definition hero_report : pydict :=
  Eval vm_compute in
    match report_of_profile "hero" hero_profile with
    | Ok report => report
    | Raise _ => []
    end.

(** Raw settings: a heading that gives only its id, an image picker, and a
    range with a validation rule. *)
Definition raw_heading : pydict := [ "id" :-> "heading_text" ].

Definition raw_image : pydict :=
  [ "id" :-> "background_image"; "type" :-> "image_picker" ].

Definition raw_range : pydict :=
  [ "id" :-> "height"; "type" :-> "range"; "max" :-> PInt 900;
    "unit" :-> "px"; "validation" :-> PDict [ "required" :-> PBool true ] ].

(** A profile with every field furnished. *)
Definition four_settings : list pyval :=
  [ PDict [ "id" :-> "title" ]; PDict [ "id" :-> "subtitle" ];
    PDict [ "id" :-> "button_label" ]; PDict [ "id" :-> "button_link" ] ].

Definition rich_profile : pydict :=
  [ "essentialSettings" :-> PList four_settings;
    "recommendedSettings" :-> PList four_settings;
    "advancedSettings" :-> PList four_settings;
    "suggestedBlocks" :-> PList [ PDict [ "type" :-> "slide" ] ];
    "commonUseCases" :-> PList [ PStr "Landing page" ] ].


(** Command lines. *)
Definition hero_args : Args.t :=
  {| Args.name := "hero-banner";
     Args.type := "hero";
     Args.description := PNone;
     Args.theme_path := "shopify-theme";
     Args.advanced := true |}.

(** A working set of two descriptors: an image picker, whose default is
    null, and a color. *)
Definition image_and_color : list pyval :=
  [ PDict [ "type" :-> "image_picker"; "id" :-> "background_image";
            "label" :-> "Background Image"; "default" :-> PNone;
            "required" :-> PBool false; "info" :-> "";
            "category" :-> "recommended" ];
    PDict [ "type" :-> "color"; "id" :-> "overlay_color";
            "label" :-> "Overlay Color"; "default" :-> "#000000";
            "required" :-> PBool false; "info" :-> "";
            "category" :-> "recommended" ] ].

Definition image_and_color_config : SectionConfig.t :=
  {| SectionConfig.name := "hero-banner";
     SectionConfig.type := "hero";
     SectionConfig.description := "Hero banner";
     SectionConfig.settings := PList image_and_color;
     SectionConfig.blocks := PList [];
     SectionConfig.presets := PList [];
     SectionConfig.intelligence_config := [] |}.

(** A generator over the analyzer of a catalog with the one type [hero]. *)
Definition generator (profile : pydict) : SectionGenerator.self :=
  {| SectionGenerator.theme_path := "shopify-theme";
     SectionGenerator.analyzer := analyzer profile |}.

Definition generator_without_catalog : SectionGenerator.self :=
  {| SectionGenerator.theme_path := "shopify-theme";
     SectionGenerator.analyzer := analyzer_without_catalog |}.

End Samples.

(** The descriptors of an organized list come, in order, from the raw
    settings of the profile list they were organized from, and each carries
    the category its raw setting names, [recommended] when it names none. *)
Definition keeps_raw_category (profile organized : pydict)
    (raw_key tier : string) : Prop :=
  exists raws ns,
    Py.iter (Py.dget profile raw_key (PList [])) = Ok raws
    /\ Py.dict_get tier organized = Some (PList ns)
    /\ Forall2
         (fun raw n =>
            exists rd nd, raw = PDict rd /\ n = PDict nd
              /\ Py.dict_get "category" nd
                 = Some (Py.dget rd "category" "recommended"))
         raws ns.

(** A setting descriptor as the generator receives it: a dictionary with a
    string [id]. *)
Definition descriptor (n : pyval) : Prop :=
  exists (nd : pydict) (i : string),
    n = PDict nd /\ Py.dict_get "id" nd = Some (PStr i).

(** The descriptor [n] has id [i] and the non-null default [v]. *)
Definition provides (i : string) (v : pyval) (n : pyval) : Prop :=
  exists nd : pydict,
    n = PDict nd
    /\ Py.dict_get "id" nd = Some (PStr i)
    /\ Py.dict_get "default" nd = Some v
    /\ v <> PNone.

(** The settings of a working set in the order of the schema: those of
    category essential, then recommended, then advanced. *)
Definition by_tier (working : list pyval) : list pyval :=
  List.filter (Report.has_category "essential") working
  ++ List.filter (Report.has_category "recommended") working
  ++ List.filter (Report.has_category "advanced") working.

(** One round of the loop of [_get_preset_defaults] on a descriptor. *)
Definition collect_default (defaults : pydict) (n : pyval) : pydict :=
  match n with
  | PDict nd =>
      match Py.dict_get "default" nd, Py.dict_get "id" nd with
      | Some v, Some k => if Py.is_none v then defaults else Py.dict_set k v defaults
      | _, _ => defaults
      end
  | _ => defaults
  end.

(* ================================================================== *)
(** * What the operations compute, in closed form *)
(* ================================================================== *)

(** The default [_get_default_for_type] gives for a hashable type. *)
Definition default_of (setting_type : pyval) : pyval :=
  match SectionTypeAnalyzer._get_default_for_type setting_type with
  | Ok v => v
  | Raise _ => PNone
  end.

(** The descriptor of a raw setting [d] with the string id [i]: the seven
    standard entries, then the entries that depend on the type and on what
    the raw setting holds. *)
Definition normalized_form (d : pydict) (i : string) : pydict :=
  [ "type" :-> Py.dget d "type" "text";
    "id" :-> PStr i;
    "label" :-> Py.dget d "label" (Py.title (Py.replace_char "_" " " i));
    "default" :-> Py.dget d "default" (default_of (Py.dget d "type" "text"));
    "required" :-> Py.dget d "required" (PBool false);
    "info" :-> Py.dget d "info" "";
    "category" :-> Py.dget d "category" "recommended" ]
  ++ (if Py.is_str (Py.dget d "type" PNone) "select"
      then match Py.dict_get "options" d with
           | Some options => [ "options" :-> options ]
           | None => []
           end
      else [])
  ++ (if Py.is_str (Py.dget d "type" PNone) "range"
      then [ "min" :-> Py.dget d "min" (PInt 0);
             "max" :-> Py.dget d "max" (PInt 100);
             "unit" :-> Py.dget d "unit" "" ]
      else [])
  ++ match Py.dict_get "validation" d with
     | Some validation => [ "validation" :-> validation ]
     | None => []
     end.

(** The category of a descriptor is one of the three tiers. *)
Definition in_tier (s : pyval) : bool :=
  Report.has_category "essential" s
  || Report.has_category "recommended" s
  || Report.has_category "advanced" s.

(** The raw setting [d] has a default that is not null. *)
Definition has_default (d : pydict) : bool :=
  match Py.dict_get "default" d with
  | Some v => negb (Py.is_none v)
  | None => false
  end.

(** The operations [save_section] asks for a bundle, in order. *)
Definition save_plan (theme_path section_name : string)
    (generated_section : GeneratedSection.t) : list fs_event :=
  let sections_dir := Join (Path theme_path) "sections" in
  [ Mkdir sections_dir;
    WriteFile (Join sections_dir (section_name +:+ ".liquid"))
      (GeneratedSection.liquid_content generated_section);
    WriteFile (Join sections_dir (section_name +:+ ".css"))
      (GeneratedSection.css_content generated_section) ]
  ++ (if text_truthy (GeneratedSection.js_content generated_section)
      then [ WriteFile (Join sections_dir (section_name +:+ ".js"))
               (GeneratedSection.js_content generated_section) ]
      else []).


(** The types [_get_optimization_tips] has tips for. *)
Definition four_with_tips : list string :=
  [ "hero"; "features"; "testimonials"; "gallery" ].

(** [_get_preset_defaults] gets past the setting [d]: it has no default, or
    a null one, or it has an id that can be a key. *)
Definition preset_ok (d : pydict) : bool :=
  negb (has_default d)
  || match Py.dict_get "id" d with
     | Some k => Py.hashable k
     | None => false
     end.

(* ================================================================== *)
(** * Dictionaries and the store: basic facts *)
(* ================================================================== *)

Section dictionaries.

Lemma key_eqb_str (k k' : string) :
  Py.key_eqb (PStr k) (PStr k') = String.eqb k k'.
Proof. reflexivity. Qed.

Lemma key_eqb_str_inv (k : string) (x : pyval) :
  Py.key_eqb (PStr k) x = true -> x = PStr k.
Proof.
  destruct x; simpl; try discriminate.
  intros H. apply String.eqb_eq in H. congruence.
Qed.

Lemma dict_get_set_same (k : string) (v : pyval) (d : pydict) :
  Py.dict_get k (Py.dict_set k v d) = Some v.
Proof.
  induction d as [|[k' v'] d IH]; cbn [Py.dict_get Py.dict_set].
  - rewrite key_eqb_str, String.eqb_refl. reflexivity.
  - destruct (Py.key_eqb k k') eqn:E; cbn [Py.dict_get]; rewrite E; auto.
Qed.

Lemma dict_get_set_other (k k' : string) (v : pyval) (d : pydict) :
  k <> k' ->
  Py.dict_get k (Py.dict_set k' v d) = Py.dict_get k d.
Proof.
  intros Hne. apply String.eqb_neq in Hne.
  induction d as [|[k0 v0] d IH]; cbn [Py.dict_get Py.dict_set].
  - rewrite key_eqb_str, Hne. reflexivity.
  - destruct (Py.key_eqb k' k0) eqn:E; cbn [Py.dict_get].
    + apply key_eqb_str_inv in E. subst k0.
      rewrite key_eqb_str, Hne. reflexivity.
    + destruct (Py.key_eqb k k0); auto.
Qed.

Lemma dict_get_set (k k' : string) (v : pyval) (d : pydict) :
  Py.dict_get k (Py.dict_set k' v d)
  = if String.eqb k k' then Some v else Py.dict_get k d.
Proof.
  destruct (String.eqb k k') eqn:E.
  - apply String.eqb_eq in E. subst. apply dict_get_set_same.
  - apply String.eqb_neq in E. apply dict_get_set_other, E.
Qed.

End dictionaries.

Section store_facts.

Lemma lookup_fresh (h : heap) (d : pydict) :
  (h ++ [d]) !! length h = Some d.
Proof. apply list_lookup_middle. reflexivity. Qed.

Lemma insert_fresh (h : heap) (d d' : pydict) :
  <[length h := d']> (h ++ [d]) = h ++ [d'].
Proof.
  rewrite insert_app_r_alt by lia.
  replace (length h - length h)%nat with 0%nat by lia. reflexivity.
Qed.

Lemma lookup_extended (h : heap) (x : pydict) (l : loc) (d : pydict) :
  h !! l = Some d -> (h ++ [x]) !! l = Some d.
Proof. intros H. apply lookup_app_l_Some, H. Qed.

End store_facts.

(* ================================================================== *)
(** * The analyzer as a function of the profile *)
(* ================================================================== *)

Section analyzer_runs.

Import SectionTypeAnalyzer.

Variable this : SectionTypeAnalyzer.self.

(** The known-type path allocates one object, the copy, and leaves it
    updated when no exception is raised. *)
Lemma get_intelligent_config_run (t : string) (h : heap) (l : loc)
    (d : pydict) :
  section_types this !! t = Some l ->
  h !! l = Some d ->
  _get_intelligent_config this t h
  = (report_of_profile t d,
     h ++ [match report_of_profile t d with Ok r => r | Raise _ => d end]).
Proof.
  intros Hl Hd.
  unfold _get_intelligent_config, report_of_profile, profile_of.
  rewrite Hl.
  cbv [mbind M_bind result_bind lift deref alloc store].
  rewrite Hd, lookup_fresh.
  destruct (_organize_settings d) as [o|e]; [|reflexivity].
  destruct (Py.getitem (PDict o) "essential") as [es|e]; [|reflexivity].
  destruct (Py.getitem (PDict o) "recommended") as [rs|e]; [|reflexivity].
  destruct (Py.add es rs) as [ss|e]; [|reflexivity].
  destruct (Py.getitem (PDict o) "advanced") as [ads|e]; [|reflexivity].
  destruct (_calculate_intelligence_score d) as [s|e]; [|reflexivity].
  rewrite insert_fresh, lookup_fresh. reflexivity.
Qed.

End analyzer_runs.

(* ================================================================== *)
(** * Normalization and organization *)
(* ================================================================== *)

Section normalization.

Import SectionTypeAnalyzer.

(** A normalized setting is a dictionary built from a dictionary that has
    a string [id]; its [category] is the raw setting's own, or
    [recommended]. *)
Lemma normalize_setting_inv (x n : pyval) :
  _normalize_setting x = Ok n ->
  exists (d nd : pydict) (raw_id : string),
    x = PDict d /\ n = PDict nd
    /\ Py.dict_get "id" d = Some (PStr raw_id)
    /\ Py.dict_get "id" nd = Some (PStr raw_id)
    /\ Py.dict_get "category" nd
       = Some (Py.dget d "category" "recommended")
    /\ Py.dict_get "default" nd <> None.
Proof.
  unfold _normalize_setting.
  destruct x as [| | | | |d]; try discriminate.
  cbn [Py.get Py.hashable mbind result_bind Py.contains Py.getitem].
  intros H. exists d.
  destruct (Py.dict_get "id" d) as [raw_id|] eqn:Hid;
    cbn [mbind result_bind] in H; [|discriminate H].
  destruct raw_id as [| | |raw_id| |]; try discriminate H.
  cbn [Py.replace mbind result_bind] in H.
  destruct (_get_default_for_type (Py.dget d "type" "text")) as [dflt|];
    cbn [mbind result_bind] in H; [|discriminate H].
  assert (Hdget : Py.dget d "id" (Py.dget d "name" "setting") = PStr raw_id)
    by (unfold Py.dget at 1; rewrite Hid; reflexivity).
  rewrite Hdget in H.
  destruct (Py.is_str (Py.dget d "type" PNone) "select");
    destruct (Py.is_str (Py.dget d "type" PNone) "range");
    destruct (Py.dmem "options" d);
    destruct (Py.dmem "validation" d);
    destruct (Py.dict_get "options" d);
    destruct (Py.dict_get "validation" d);
    cbn in H; try discriminate H;
    injection H as <-; eexists _, raw_id;
    repeat split; try reflexivity; discriminate.
Qed.

Lemma mapM_result_inv {A B} (f : A -> result B) (xs : list A)
    (ys : list B) :
  mapM f xs = Ok ys -> Forall2 (fun x y => f x = Ok y) xs ys.
Proof.
  revert ys. induction xs as [|x xs IH]; intros ys; cbn.
  - intros [= <-]. constructor.
  - destruct (f x) as [y|] eqn:Hx; cbn; [|discriminate].
    destruct (mapM f xs) as [ys'|]; cbn; [|discriminate].
    intros [= <-]. constructor; auto.
Qed.

Lemma normalized_are_descriptors (xs ns : list pyval) :
  Forall2 (fun x n => _normalize_setting x = Ok n) xs ns ->
  Forall descriptor ns.
Proof.
  induction 1 as [|x n xs ns Hx _ IH]; constructor; auto.
  apply normalize_setting_inv in Hx as (? & nd & i & _ & -> & _ & Hid & _).
  exists nd, i. auto.
Qed.

Lemma normalize_all_inv (raw : pyval) (ns : list pyval) :
  normalize_all raw = Ok ns ->
  exists xs, Py.iter raw = Ok xs
    /\ Forall2 (fun x n => _normalize_setting x = Ok n) xs ns.
Proof.
  unfold normalize_all. destruct (Py.iter raw) as [xs|]; cbn; [|discriminate].
  intros H. exists xs. split; [reflexivity|]. apply mapM_result_inv, H.
Qed.

Lemma organize_settings_inv (d o : pydict) :
  _organize_settings d = Ok o ->
  exists E R A,
    normalize_all (Py.dget d "essentialSettings" (PList [])) = Ok E
    /\ normalize_all (Py.dget d "recommendedSettings" (PList [])) = Ok R
    /\ normalize_all (Py.dget d "advancedSettings" (PList [])) = Ok A
    /\ o = [ "essential" :-> PList E;
             "recommended" :-> PList R;
             "advanced" :-> PList A ].
Proof.
  unfold _organize_settings.
  destruct (normalize_all (Py.dget d "essentialSettings" (PList [])))
    as [E|]; cbn [mbind result_bind]; [|discriminate].
  destruct (normalize_all (Py.dget d "recommendedSettings" (PList [])))
    as [R|]; cbn [mbind result_bind]; [|discriminate].
  destruct (normalize_all (Py.dget d "advancedSettings" (PList [])))
    as [A|]; cbn [mbind result_bind]; [|discriminate].
  intros [= <-]. exists E, R, A. auto.
Qed.

Lemma report_of_profile_inv (t : string) (d r : pydict) :
  report_of_profile t d = Ok r ->
  exists E R A s,
    normalize_all (Py.dget d "essentialSettings" (PList [])) = Ok E
    /\ normalize_all (Py.dget d "recommendedSettings" (PList [])) = Ok R
    /\ normalize_all (Py.dget d "advancedSettings" (PList [])) = Ok A
    /\ _calculate_intelligence_score d = Ok s
    /\ r = Py.dict_update d
         [ "intelligent_settings" :-> PDict
             [ "essential" :-> PList E;
               "recommended" :-> PList R;
               "advanced" :-> PList A ];
           "suggested_settings" :-> PList (E ++ R);
           "advanced_settings" :-> PList A;
           "suggested_blocks" :-> Py.dget d "suggestedBlocks" (PList []);
           "intelligence_score" :-> PInt s;
           "optimization_tips" :-> PList (_get_optimization_tips t) ].
Proof.
  unfold report_of_profile.
  destruct (_organize_settings d) as [o|] eqn:Ho;
    cbn [mbind result_bind]; [|discriminate].
  apply organize_settings_inv in Ho as (E & R & A & HE & HR & HA & ->).
  cbn [Py.getitem Py.dict_get Py.key_eqb String.eqb Ascii.eqb Bool.eqb
       mbind result_bind Py.add].
  destruct (_calculate_intelligence_score d) as [s|];
    cbn [mbind result_bind]; [|discriminate].
  intros [= <-]. exists E, R, A, s. auto.
Qed.

Variable this : SectionTypeAnalyzer.self.

(** [analyze_section_type] in one equation. *)
Lemma analyze_run (t : string) (h : heap) :
  analyze_section_type this t h
  = match section_types this !! t with
    | None => (Ok (_get_generic_config t), h)
    | Some l =>
        match h !! l with
        | None => (Raise (DanglingRef l), h)
        | Some d =>
            (report_of_profile t d,
             h ++ [match report_of_profile t d with
                   | Ok r => r
                   | Raise _ => d
                   end])
        end
    end.
Proof.
  unfold analyze_section_type.
  destruct (section_types this !! t) as [l|] eqn:Hl.
  - rewrite bool_decide_eq_true_2 by eauto.
    destruct (h !! l) as [d|] eqn:Hd.
    + apply (get_intelligent_config_run this t h l d); assumption.
    + unfold _get_intelligent_config, profile_of. rewrite Hl.
      cbv [mbind M_bind lift deref]. rewrite Hd. reflexivity.
  - rewrite bool_decide_eq_false_2 by (intros [? ?]; discriminate).
    reflexivity.
Qed.

(** The two ways [analyze_section_type] returns a report. *)
Lemma analyze_inv (t : string) (h h' : heap) (report : pydict) :
  analyze_section_type this t h = (Ok report, h') ->
  (section_types this !! t = None
   /\ report = _get_generic_config t /\ h' = h)
  \/ (exists l d,
        section_types this !! t = Some l /\ h !! l = Some d
        /\ report_of_profile t d = Ok report /\ h' = h ++ [report]).
Proof.
  rewrite analyze_run.
  destruct (section_types this !! t) as [l|] eqn:Hl.
  - destruct (h !! l) as [d|] eqn:Hd; [|discriminate].
    destruct (report_of_profile t d) as [r|] eqn:Hr; [|discriminate].
    intros [= <- <-]. right. exists l, d. auto.
  - intros [= <- <-]. left. auto.
Qed.

End normalization.

(* ================================================================== *)
(** * The model on small inputs *)
(* ================================================================== *)

Section small_inputs.

Import SectionTypeAnalyzer.

Example title_of_words :
  Py.title "my widget_x" = "My Widget_X"
  /\ Py.title "hello wORLD 3bar" = "Hello World 3Bar".
Proof. split; reflexivity. Qed.

(** The two bytes [C3 A9] encode one code point (e with an acute accent):
    the string made of them and of [a] has two characters. *)
Example code_points_of_two_characters :
  let s := String (ascii_of_nat 195) (String (ascii_of_nat 169) "a") in
  Py.len (PStr s) = Ok 2
  /\ Py.iter (PStr s)
     = Ok [ PStr (String (ascii_of_nat 195) (String (ascii_of_nat 169) ""));
            PStr "a" ]
  /\ Py.slice_to (PStr s) 1
     = Ok (PStr (String (ascii_of_nat 195) (String (ascii_of_nat 169) "")))
  /\ Py.ascii_only s = false
  /\ Py.ascii_only "heading_text" = true.
Proof. repeat split; reflexivity. Qed.

Example label_from_id :
  _normalize_setting (PDict [ "id" :-> "heading_text" ])
  = Ok (PDict [ "type" :-> "text"; "id" :-> "heading_text";
                "label" :-> "Heading Text"; "default" :-> "Default text";
                "required" :-> PBool false; "info" :-> "";
                "category" :-> "recommended" ]).
Proof. reflexivity. Qed.

Example range_setting :
  _normalize_setting
    (PDict [ "id" :-> "height"; "type" :-> "range"; "max" :-> PInt 900;
             "unit" :-> "px"; "category" :-> "advanced" ])
  = Ok (PDict [ "type" :-> "range"; "id" :-> "height";
                "label" :-> "Height"; "default" :-> PInt 50;
                "required" :-> PBool false; "info" :-> "";
                "category" :-> "advanced";
                "min" :-> PInt 0; "max" :-> PInt 900; "unit" :-> "px" ]).
Proof. reflexivity. Qed.

Example default_of_unknown_type :
  _get_default_for_type "video" = Ok (PStr "Default value")
  /\ _get_default_for_type "image_picker" = Ok PNone
  /\ _get_default_for_type (PList []) = Raise (TypeError "unhashable type").
Proof. repeat split. Qed.

Example score_of_samples :
  _calculate_intelligence_score Samples.hero_profile = Ok 70
  /\ _calculate_intelligence_score Samples.untagged_profile = Ok 35
  /\ _calculate_intelligence_score [] = Ok 0.
Proof. repeat split. Qed.

Example update_keeps_the_position :
  Py.dict_update [ "a" :-> PInt 1; "b" :-> PInt 2 ]
    [ "c" :-> PInt 3; "a" :-> PInt 4 ]
  = [ "a" :-> PInt 4; "b" :-> PInt 2; "c" :-> PInt 3 ].
Proof. reflexivity. Qed.


End small_inputs.

(* ================================================================== *)
(** * Properties of the analyzer *)
(* ================================================================== *)

Section analyzer_properties.

Import SectionTypeAnalyzer.

Ltac dict_lookup :=
  cbn [Py.dict_update fold_left fst snd];
  rewrite ?dict_get_set; reflexivity.

Lemma updated_intelligent_settings (d : pydict) (v1 v2 v3 v4 v5 v6 : pyval) :
  Py.dict_get "intelligent_settings"
    (Py.dict_update d
       [ "intelligent_settings" :-> v1; "suggested_settings" :-> v2;
         "advanced_settings" :-> v3; "suggested_blocks" :-> v4;
         "intelligence_score" :-> v5; "optimization_tips" :-> v6 ])
  = Some v1.
Proof. dict_lookup. Qed.

Lemma updated_suggested_settings (d : pydict) (v1 v2 v3 v4 v5 v6 : pyval) :
  Py.dict_get "suggested_settings"
    (Py.dict_update d
       [ "intelligent_settings" :-> v1; "suggested_settings" :-> v2;
         "advanced_settings" :-> v3; "suggested_blocks" :-> v4;
         "intelligence_score" :-> v5; "optimization_tips" :-> v6 ])
  = Some v2.
Proof. dict_lookup. Qed.

Lemma updated_suggested_blocks (d : pydict) (v1 v2 v3 v4 v5 v6 : pyval) :
  Py.dict_get "suggested_blocks"
    (Py.dict_update d
       [ "intelligent_settings" :-> v1; "suggested_settings" :-> v2;
         "advanced_settings" :-> v3; "suggested_blocks" :-> v4;
         "intelligence_score" :-> v5; "optimization_tips" :-> v6 ])
  = Some v4.
Proof. dict_lookup. Qed.

Lemma updated_intelligence_score (d : pydict) (v1 v2 v3 v4 v5 v6 : pyval) :
  Py.dict_get "intelligence_score"
    (Py.dict_update d
       [ "intelligent_settings" :-> v1; "suggested_settings" :-> v2;
         "advanced_settings" :-> v3; "suggested_blocks" :-> v4;
         "intelligence_score" :-> v5; "optimization_tips" :-> v6 ])
  = Some v5.
Proof. dict_lookup. Qed.

(** The organized lists of a report, and how its suggested settings are
    read. *)
Lemma report_shape (this : self) (t : string) (h h' : heap)
    (report : pydict) :
  analyze_section_type this t h = (Ok report, h') ->
  exists E R A,
    Report.organized report "essential" = Ok (PList E)
    /\ Report.organized report "recommended" = Ok (PList R)
    /\ Report.organized report "advanced" = Ok (PList A)
    /\ Report.suggested_settings report = PList (E ++ R)
    /\ Forall descriptor (E ++ R ++ A).
Proof.
  intros H. apply analyze_inv in H as [(_ & -> & _)|(l & d & _ & _ & Hr & _)].
  - exists [], [], []. repeat split; constructor.
  - apply report_of_profile_inv in Hr
      as (E & R & A & s & HE & HR & HA & _ & ->).
    exists E, R, A.
    unfold Report.organized, Report.suggested_settings, Py.dget, Py.getitem.
    rewrite updated_intelligent_settings, updated_suggested_settings.
    repeat split.
    apply normalize_all_inv in HE as (? & _ & HE).
    apply normalize_all_inv in HR as (? & _ & HR).
    apply normalize_all_inv in HA as (? & _ & HA).
    rewrite !Forall_app.
    repeat split; eapply normalized_are_descriptors; eassumption.
Qed.

(** X22: for a type of the catalog, the report that
    [analyze_section_type] returns has an entry [suggested_settings], and
    that entry is the organized essential settings followed by the organized
    recommended settings. *)
Theorem catalog_suggested_settings_concat (this : self) (t : string)
    (h h' : heap) (report : pydict) (l : loc) :
  section_types this !! t = Some l ->
  analyze_section_type this t h = (Ok report, h') ->
  exists E R,
    Report.organized report "essential" = Ok (PList E)
    /\ Report.organized report "recommended" = Ok (PList R)
    /\ Py.dict_get "suggested_settings" report = Some (PList (E ++ R)).
Proof.
  intros Hl H.
  apply analyze_inv in H
    as [(Hnone & _)|(l' & d & _ & _ & Hr & _)]; [congruence|].
  apply report_of_profile_inv in Hr
    as (E & R & A & s & _ & _ & _ & _ & ->).
  exists E, R.
  unfold Report.organized, Py.getitem.
  rewrite updated_intelligent_settings, updated_suggested_settings.
  repeat split.
Qed.

(** C10: two calls of [analyze_section_type] with the same type return
    equal results, and every object the store held before the calls,
    the profiles of the catalog among them, is unchanged after each. *)
Theorem analyze_idempotent (this : self) (t : string) (h : heap) :
  let first := analyze_section_type this t h in
  let second := analyze_section_type this t first.2 in
  first.1 = second.1
  /\ take (length h) first.2 = h
  /\ take (length h) second.2 = h.
Proof.
  cbv zeta. rewrite analyze_run.
  destruct (section_types this !! t) as [l|] eqn:Hl.
  - destruct (h !! l) as [d|] eqn:Hd.
    + cbn [fst snd]. rewrite analyze_run, Hl.
      rewrite (lookup_extended _ _ _ _ Hd). cbn [fst snd].
      split; [reflexivity|].
      rewrite <- app_assoc.
      split; apply take_app_length.
    + cbn [fst snd]. rewrite analyze_run, Hl, Hd. cbn [fst snd].
      rewrite firstn_all. auto.
  - cbn [fst snd]. rewrite analyze_run, Hl. cbn [fst snd].
    rewrite firstn_all. auto.
Qed.

(** X23: when the catalog file is missing ([FileNotFoundError]) or its text
    is not JSON ([JSONDecodeError]), loading returns the document with an
    empty [sectionTypes] mapping, the analyzer is built without an error and
    without a profile, and every analysis takes the generic path. *)
Theorem load_degrades_to_generic (files : string -> read_outcome)
    (path : string) :
  files path = FileNotFoundError \/ files path = JSONDecodeError ->
  _load_intelligence_config files path
  = Ok {| sectionTypes := Some []; intelligenceRules := Some (PDict []) |}
  /\ forall h, exists this,
       __init__ files path h = (Ok this, h)
       /\ section_types this = ∅
       /\ forall t h',
            analyze_section_type this t h'
            = (Ok (_get_generic_config t), h').
Proof.
  intros Hfile.
  assert (Hdoc : _load_intelligence_config files path
                 = Ok {| sectionTypes := Some [];
                         intelligenceRules := Some (PDict []) |})
    by (unfold _load_intelligence_config; destruct Hfile as [-> | ->];
        reflexivity).
  split; [exact Hdoc|].
  intros h. eexists. split; [|split].
  - unfold __init__. rewrite Hdoc. reflexivity.
  - reflexivity.
  - intros t h'. rewrite analyze_run. cbn [section_types].
    rewrite lookup_empty. reflexivity.
Qed.

Lemma load_degrades_to_generic_witness :
  ((fun _ : string => FileNotFoundError) "section-intelligence-config.json"
     = FileNotFoundError
   \/ (fun _ : string => FileNotFoundError) "section-intelligence-config.json"
     = JSONDecodeError)
  /\ (_load_intelligence_config (fun _ => FileNotFoundError)
        "section-intelligence-config.json"
      = Ok {| sectionTypes := Some []; intelligenceRules := Some (PDict []) |}
      /\ forall h, exists this,
           __init__ (fun _ => FileNotFoundError)
             "section-intelligence-config.json" h = (Ok this, h)
           /\ section_types this = ∅
           /\ forall t h',
                analyze_section_type this t h'
                = (Ok (_get_generic_config t), h')).
Proof.
  split; [left; reflexivity|].
  apply (load_degrades_to_generic (fun _ => FileNotFoundError)
           "section-intelligence-config.json").
  left; reflexivity.
Defined.

End analyzer_properties.


Section analyzer_claims.

Import SectionTypeAnalyzer.

Lemma samples_init (profile : pydict) :
  __init__ (fun _ => Loaded (Samples.document profile))
    "section-intelligence-config.json" []
  = (Ok (Samples.analyzer profile), Samples.objects profile).
Proof. reflexivity. Qed.

Lemma catalog_suggested_settings_concat_witness :
  section_types (Samples.analyzer Samples.hero_profile) !! "hero"
  = Some 0%nat
  /\ analyze_section_type (Samples.analyzer Samples.hero_profile) "hero"
       (Samples.objects Samples.hero_profile)
     = (Ok Samples.hero_report,
        Samples.objects Samples.hero_profile ++ [Samples.hero_report])
  /\ exists E R,
       Report.organized Samples.hero_report "essential" = Ok (PList E)
       /\ Report.organized Samples.hero_report "recommended" = Ok (PList R)
       /\ Py.dict_get "suggested_settings" Samples.hero_report
          = Some (PList (E ++ R))
       /\ length E = 2%nat /\ length R = 1%nat.
Proof.
  split; [reflexivity|]. split; [vm_compute; reflexivity|].
  destruct (catalog_suggested_settings_concat
              (Samples.analyzer Samples.hero_profile) "hero"
              (Samples.objects Samples.hero_profile)
              (Samples.objects Samples.hero_profile ++ [Samples.hero_report])
              Samples.hero_report 0%nat)
    as (E & R & HE & HR & HS); [reflexivity|vm_compute; reflexivity|].
  exists E, R. split; [exact HE|]. split; [exact HR|]. split; [exact HS|].
  vm_compute in HE, HR. injection HE as <-. injection HR as <-.
  split; reflexivity.
Defined.

(* ---------------------------------------------------------------- *)
(** ** The generic path *)

(** C2: for every type absent from the catalog the report keeps the four
    synthesized settings as raw profile lists only: one essential setting
    ([heading], text, whose default is, for an ASCII type name, the
    title-cased name followed by " Section"), two recommended settings
    ([background_color] and [text_color], both color) and one advanced
    setting ([animation], a select between [none] and [fadeIn] with default
    [fadeIn]). The organized settings of the report, the ones the schema is
    made from, are three empty lists and hold none of the four. The report
    suggests no block, its score is 25 and it has one optimization tip. *)
Theorem generic_settings_are_not_organized (this : self) (t : string)
    (h : heap) :
  section_types this !! t = None ->
  exists report default,
    analyze_section_type this t h = (Ok report, h)
    /\ Py.dict_get "essentialSettings" report
       = Some (PList
           [ PDict [ "id" :-> "heading"; "type" :-> "text";
                     "label" :-> "Section Heading";
                     "default" :-> PStr default ] ])
    /\ (Py.ascii_only t = true -> default = Py.title t +:+ " Section")
    /\ Py.dict_get "recommendedSettings" report
       = Some (PList
           [ PDict [ "id" :-> "background_color"; "type" :-> "color";
                     "label" :-> "Background Color";
                     "default" :-> "#ffffff" ];
             PDict [ "id" :-> "text_color"; "type" :-> "color";
                     "label" :-> "Text Color";
                     "default" :-> "#000000" ] ])
    /\ Py.dict_get "advancedSettings" report
       = Some (PList
           [ PDict [ "id" :-> "animation"; "type" :-> "select";
                     "label" :-> "Animation Effect";
                     "options" :-> PList
                       [ PDict [ "value" :-> "none"; "label" :-> "None" ];
                         PDict [ "value" :-> "fadeIn";
                                 "label" :-> "Fade In" ] ];
                     "default" :-> "fadeIn" ] ])
    /\ Report.organized report "essential" = Ok (PList [])
    /\ Report.organized report "recommended" = Ok (PList [])
    /\ Report.organized report "advanced" = Ok (PList [])
    /\ Report.suggested_blocks report = PList []
    /\ Py.dict_get "suggestedBlocks" report = Some (PList [])
    /\ Report.score report = PInt 25
    /\ exists tip, Report.optimization_tips report = Some (PList [tip]).
Proof.
  intros Hnone. eexists _, _. split.
  - rewrite analyze_run, Hnone. reflexivity.
  - repeat split. eexists. reflexivity.
Qed.

Lemma generic_settings_are_not_organized_witness :
  section_types Samples.analyzer_without_catalog !! "widget" = None
  /\ exists report,
       analyze_section_type Samples.analyzer_without_catalog "widget" []
       = (Ok report, [])
       /\ Py.dict_get "essentialSettings" report
          = Some (PList
              [ PDict [ "id" :-> "heading"; "type" :-> "text";
                        "label" :-> "Section Heading";
                        "default" :-> "Widget Section" ] ])
       /\ Report.organized report "essential" = Ok (PList [])
       /\ Report.organized report "recommended" = Ok (PList [])
       /\ Report.organized report "advanced" = Ok (PList [])
       /\ Report.score report = PInt 25.
Proof.
  split; [reflexivity|].
  destruct (generic_settings_are_not_organized
              Samples.analyzer_without_catalog "widget" [] eq_refl)
    as (report & default & Hrun & Hess & Hdefault & _ & _
        & HE & HR & HA & _ & _ & Hscore & _).
  exists report. rewrite (Hdefault eq_refl) in Hess.
  repeat split; assumption.
Defined.

(** C3: for every type absent from the catalog the report has no entry
    [suggested_settings]. It holds one essential and two recommended
    settings as raw profile lists, its organized essential and recommended
    settings are empty, and what [generate_section] reads with
    [analysis.get('suggested_settings', [])] is the empty list. *)
Theorem generic_report_lacks_suggested_settings (this : self) (t : string)
    (h : heap) :
  section_types this !! t = None ->
  exists report essential first second,
    analyze_section_type this t h = (Ok report, h)
    /\ Py.dict_get "suggested_settings" report = None
    /\ Py.dict_get "essentialSettings" report = Some (PList [essential])
    /\ Py.dict_get "recommendedSettings" report
       = Some (PList [first; second])
    /\ Report.organized report "essential" = Ok (PList [])
    /\ Report.organized report "recommended" = Ok (PList [])
    /\ Report.suggested_settings report = PList [].
Proof.
  intros Hnone. eexists _, _, _, _. split.
  - rewrite analyze_run, Hnone. reflexivity.
  - repeat split.
Qed.

Lemma generic_report_lacks_suggested_settings_witness :
  section_types Samples.analyzer_without_catalog !! "widget" = None
  /\ exists report,
       analyze_section_type Samples.analyzer_without_catalog "widget" []
       = (Ok report, [])
       /\ Py.dict_get "suggested_settings" report = None
       /\ Py.dmem "essentialSettings" report = true
       /\ Py.dmem "recommendedSettings" report = true.
Proof.
  split; [reflexivity|].
  destruct (generic_report_lacks_suggested_settings
              Samples.analyzer_without_catalog "widget" [] eq_refl)
    as (report & essential & first & second & Hrun & Hnone & HE & HR & _).
  exists report. unfold Py.dmem. rewrite HE, HR.
  repeat split; assumption.
Defined.

(* ---------------------------------------------------------------- *)
(** ** Tier tags *)

(** C4, against the claim as stated: the first essential setting of
    [untagged_profile] names no category and is normalized into a
    descriptor of category [recommended], the second names [advanced] and
    keeps it; neither is tagged [essential]. *)
Lemma essential_setting_not_tagged_essential :
  exists report first second,
    analyze_section_type (Samples.analyzer Samples.untagged_profile) "hero"
      (Samples.objects Samples.untagged_profile)
    = (Ok report, Samples.objects Samples.untagged_profile ++ [report])
    /\ Report.organized report "essential" = Ok (PList [first; second])
    /\ Report.has_category "recommended" first = true
    /\ Report.has_category "advanced" second = true
    /\ Report.has_category "essential" first = false
    /\ Report.has_category "essential" second = false.
Proof.
  eexists _, _, _. split; [vm_compute; reflexivity|].
  split; [vm_compute; reflexivity|]. repeat split.
Qed.

Lemma normalize_all_keeps_raw_category (raw : pyval) (ns : list pyval) :
  normalize_all raw = Ok ns ->
  exists raws,
    Py.iter raw = Ok raws
    /\ Forall2
         (fun raw n =>
            exists rd nd, raw = PDict rd /\ n = PDict nd
              /\ Py.dict_get "category" nd
                 = Some (Py.dget rd "category" "recommended"))
         raws ns.
Proof.
  intros H. apply normalize_all_inv in H as (raws & Hiter & Hall).
  exists raws. split; [exact Hiter|]. clear Hiter.
  induction Hall as [|x n xs ns' Hx _ IH]; constructor; auto.
  apply normalize_setting_inv in Hx
    as (rd & nd & raw_id & -> & -> & _ & _ & Hc & _).
  exists rd, nd. auto.
Qed.

(** C4, amended: on the known-type path every raw specification is
    normalized into a descriptor whose category is the one the raw
    specification itself names, and [recommended] when it names none,
    whichever of the three lists it is taken from; the list only decides
    under which tier of the organized settings the descriptor is filed. *)
Theorem organize_keeps_raw_category (profile organized : pydict) :
  _organize_settings profile = Ok organized ->
  keeps_raw_category profile organized "essentialSettings" "essential"
  /\ keeps_raw_category profile organized "recommendedSettings" "recommended"
  /\ keeps_raw_category profile organized "advancedSettings" "advanced".
Proof.
  intros H.
  apply organize_settings_inv in H as (E & R & A & HE & HR & HA & ->).
  apply normalize_all_keeps_raw_category in HE as (re & ? & ?).
  apply normalize_all_keeps_raw_category in HR as (rr & ? & ?).
  apply normalize_all_keeps_raw_category in HA as (ra & ? & ?).
  repeat split; eexists _, _; (split; [eassumption|]);
    (split; [reflexivity|assumption]).
Qed.

Lemma organize_keeps_raw_category_witness :
  _organize_settings Samples.untagged_profile
  = Ok [ "essential" :-> PList
           [ PDict [ "type" :-> "text"; "id" :-> "title";
                     "label" :-> "Title"; "default" :-> "Default text";
                     "required" :-> PBool false; "info" :-> "";
                     "category" :-> "recommended" ];
             PDict [ "type" :-> "checkbox"; "id" :-> "parallax";
                     "label" :-> "Parallax"; "default" :-> PBool false;
                     "required" :-> PBool false; "info" :-> "";
                     "category" :-> "advanced" ] ];
         "recommended" :-> PList [];
         "advanced" :-> PList
           [ PDict [ "type" :-> "range"; "id" :-> "height";
                     "label" :-> "Height"; "default" :-> PInt 50;
                     "required" :-> PBool false; "info" :-> "";
                     "category" :-> "recommended";
                     "min" :-> PInt 0; "max" :-> PInt 100;
                     "unit" :-> "" ] ] ]
  /\ keeps_raw_category Samples.untagged_profile
       [ "essential" :-> PList
           [ PDict [ "type" :-> "text"; "id" :-> "title";
                     "label" :-> "Title"; "default" :-> "Default text";
                     "required" :-> PBool false; "info" :-> "";
                     "category" :-> "recommended" ];
             PDict [ "type" :-> "checkbox"; "id" :-> "parallax";
                     "label" :-> "Parallax"; "default" :-> PBool false;
                     "required" :-> PBool false; "info" :-> "";
                     "category" :-> "advanced" ] ];
         "recommended" :-> PList [];
         "advanced" :-> PList
           [ PDict [ "type" :-> "range"; "id" :-> "height";
                     "label" :-> "Height"; "default" :-> PInt 50;
                     "required" :-> PBool false; "info" :-> "";
                     "category" :-> "recommended";
                     "min" :-> PInt 0; "max" :-> PInt 100;
                     "unit" :-> "" ] ] ]
       "essentialSettings" "essential".
Proof.
  split; [reflexivity|].
  apply (organize_keeps_raw_category Samples.untagged_profile).
  reflexivity.
Defined.

(* ---------------------------------------------------------------- *)
(** ** Raw settings without an [id] *)

(** C5: the catalog may leave out the [id] of a raw setting, and
    [_normalize_setting] provides for it ([setting.get('id',
    setting.get('name', 'setting'))]); but the default of [label] is
    computed from [setting['id']] before [get] is called, and the analysis
    of such a type raises [KeyError]. *)
Theorem analyze_raises_without_id :
  _normalize_setting
    (PDict [ "name" :-> "title"; "type" :-> "text"; "label" :-> "Title" ])
  = Raise (KeyError "id")
  /\ (analyze_section_type
        (Samples.analyzer Samples.profile_without_id) "hero"
        (Samples.objects Samples.profile_without_id)).1
     = Raise (KeyError "id").
Proof. split; reflexivity. Qed.

(* ---------------------------------------------------------------- *)
(** ** The score *)

Lemma len_nonneg (v : pyval) (n : Z) : Py.len v = Ok n -> 0 <= n.
Proof. destruct v; cbn; intros [= <-]; lia. Qed.

Lemma calculate_score_bounds (d : pydict) (s : Z) :
  _calculate_intelligence_score d = Ok s -> 0 <= s <= 100.
Proof.
  unfold _calculate_intelligence_score.
  destruct (Py.len (Py.dget d "advancedSettings" (PList []))) as [n|] eqn:Hn;
    cbn [mbind result_bind]; [|discriminate].
  apply len_nonneg in Hn. intros [= <-].
  destruct (Py.truthy (Py.dget d "essentialSettings" PNone));
    destruct (Py.truthy (Py.dget d "recommendedSettings" PNone));
    destruct (Py.truthy (Py.dget d "suggestedBlocks" PNone));
    destruct (Py.truthy (Py.dget d "commonUseCases" PNone));
    destruct (0 <? n) eqn:Hpos; lia.
Qed.

Lemma truthy_list_field (d : pydict) (key : string) (l : list pyval) :
  list_field d key l ->
  Py.truthy (Py.dget d key PNone) = (if l is [] then false else true).
Proof.
  unfold list_field, Py.dget. destruct (Py.dict_get key d); intros ->.
  - destruct l; reflexivity.
  - reflexivity.
Qed.

Lemma len_list_field (d : pydict) (key : string) (l : list pyval) :
  list_field d key l ->
  Py.len (Py.dget d key (PList [])) = Ok (Z.of_nat (length l)).
Proof.
  unfold list_field, Py.dget. destruct (Py.dict_get key d); intros ->;
    reflexivity.
Qed.

Lemma calculate_score_rule (d : pydict) (E R A B U : list pyval) :
  list_field d "essentialSettings" E ->
  list_field d "recommendedSettings" R ->
  list_field d "advancedSettings" A ->
  list_field d "suggestedBlocks" B ->
  list_field d "commonUseCases" U ->
  _calculate_intelligence_score d = Ok (score_rule E R A B U).
Proof.
  intros HE HR HA HB HU. unfold _calculate_intelligence_score, score_rule.
  rewrite (truthy_list_field _ _ _ HE), (truthy_list_field _ _ _ HR),
    (truthy_list_field _ _ _ HB), (truthy_list_field _ _ _ HU),
    (len_list_field _ _ _ HA).
  cbn [mbind result_bind]. f_equal.
  destruct E, R, B, U; destruct (0 <? Z.of_nat (length A)) eqn:Hpos; lia.
Qed.

(** C6: the score of a report lies between 0 and 100; it is 25 for a type
    absent from the catalog; and for a type of the catalog whose profile
    has lists in its five fields it is, capped at 100, the sum of 30 for a
    non-empty essential list, 25 for a non-empty recommended list, 5 for
    each advanced setting up to 20, 15 for a non-empty list of suggested
    blocks and 10 for a non-empty list of common use cases. *)
Theorem intelligence_score_rule (this : self) (t : string) (h h' : heap)
    (report : pydict) :
  analyze_section_type this t h = (Ok report, h') ->
  exists s,
    Py.dict_get "intelligence_score" report = Some (PInt s)
    /\ 0 <= s <= 100
    /\ (section_types this !! t = None -> s = 25)
    /\ (forall l d E R A B U,
          section_types this !! t = Some l -> h !! l = Some d ->
          list_field d "essentialSettings" E ->
          list_field d "recommendedSettings" R ->
          list_field d "advancedSettings" A ->
          list_field d "suggestedBlocks" B ->
          list_field d "commonUseCases" U ->
          s = score_rule E R A B U).
Proof.
  intros H.
  apply analyze_inv in H as [(Hnone & -> & _)|(l & d & Hl & Hd & Hr & _)].
  - exists 25. split; [reflexivity|]. split; [lia|]. split; [reflexivity|].
    intros * Hsome. rewrite Hnone in Hsome. discriminate.
  - apply report_of_profile_inv in Hr
      as (E0 & R0 & A0 & s & _ & _ & _ & Hs & ->).
    exists s. split; [apply updated_intelligence_score|].
    split; [eapply calculate_score_bounds, Hs|].
    split; [intros Hnone; rewrite Hnone in Hl; discriminate|].
    intros l' d' E R A B U Hl' Hd' HE HR HA HB HU.
    rewrite Hl in Hl'. injection Hl' as <-.
    rewrite Hd in Hd'. injection Hd' as <-.
    rewrite (calculate_score_rule d E R A B U) in Hs by assumption.
    congruence.
Qed.

Lemma intelligence_score_rule_witness :
  analyze_section_type (Samples.analyzer Samples.hero_profile) "hero"
    (Samples.objects Samples.hero_profile)
  = (Ok Samples.hero_report,
     Samples.objects Samples.hero_profile ++ [Samples.hero_report])
  /\ exists s,
       Py.dict_get "intelligence_score" Samples.hero_report
       = Some (PInt s)
       /\ 0 <= s <= 100
       /\ s = 30 + 25 + 5 + 0 + 10.
Proof.
  split; [vm_compute; reflexivity|].
  destruct (intelligence_score_rule
              (Samples.analyzer Samples.hero_profile) "hero"
              (Samples.objects Samples.hero_profile)
              (Samples.objects Samples.hero_profile ++ [Samples.hero_report])
              Samples.hero_report)
    as (s & Hs & Hbounds & _ & Hrule); [vm_compute; reflexivity|].
  exists s. split; [exact Hs|]. split; [exact Hbounds|].
  rewrite (Hrule 0%nat Samples.hero_profile _ _ _ _ _
             eq_refl eq_refl eq_refl eq_refl eq_refl eq_refl eq_refl).
  reflexivity.
Defined.

End analyzer_claims.

(* ================================================================== *)
(** * Properties of the generator *)
(* ================================================================== *)

Section generator_runs.

Import SectionGenerator.

(** ** The dispatch tables *)

Lemma generate_template_content_raises (config : SectionConfig.t) :
  _generate_template_content config
  = Raise (AttributeError "_generate_gallery_template").
Proof. reflexivity. Qed.

Lemma generate_css_raises (config : SectionConfig.t) :
  _generate_css config = Raise (AttributeError "_generate_gallery_css").
Proof. reflexivity. Qed.

Lemma generate_js_raises (config : SectionConfig.t) :
  _generate_js config = Raise (AttributeError "_generate_gallery_js").
Proof. reflexivity. Qed.

Lemma generate_liquid_raises (config : SectionConfig.t) :
  _generate_liquid config
  = match _generate_intelligent_schema config with
    | Ok _ => Raise (AttributeError "_generate_gallery_template")
    | Raise e => Raise e
    end.
Proof.
  unfold _generate_liquid.
  destruct (_generate_intelligent_schema config); reflexivity.
Qed.

(** C1: [generate_section] returns no bundle. Building the first dispatch
    table evaluates [self._generate_gallery_template], a method the class
    does not define, so every request that gets as far as the template
    raises [AttributeError]; the requests that do not raise earlier, in the
    analysis or in the schema. The request for a [hero] section, with or
    without a catalog, is one that fails. *)
Theorem generate_section_always_raises (this : self)
    (section_name section_type : string) (description : pyval)
    (use_advanced : bool) (h : heap) :
  generate_section this section_name section_type description use_advanced h
  = match schema_of this section_name section_type description
            use_advanced h with
    | (Ok _, h') => (Raise (AttributeError "_generate_gallery_template"), h')
    | (Raise e, h') => (Raise e, h')
    end
  /\ is_ok (generate_section this section_name section_type description
              use_advanced h).1 = false
  /\ (generate_section Samples.generator_without_catalog
        "hero-banner" "hero" (PStr "") true []).1
     = Raise (AttributeError "_generate_gallery_template")
  /\ (generate_section (Samples.generator Samples.hero_profile)
        "hero-banner" "hero" (PStr "") true
        (Samples.objects Samples.hero_profile)).1
     = Raise (AttributeError "_generate_gallery_template").
Proof.
  assert (Hrun :
    generate_section this section_name section_type description
      use_advanced h
    = match schema_of this section_name section_type description
              use_advanced h with
      | (Ok _, h') =>
          (Raise (AttributeError "_generate_gallery_template"), h')
      | (Raise e, h') => (Raise e, h')
      end).
  { unfold generate_section, schema_of. cbv [mbind M_bind lift].
    destruct (section_config_of this section_name section_type description
                use_advanced h) as [[config|e] h']; [|reflexivity].
    rewrite generate_liquid_raises.
    destruct (_generate_intelligent_schema config); reflexivity. }
  split; [exact Hrun|]. split; [|split; vm_compute; reflexivity].
  rewrite Hrun.
  destruct (schema_of this section_name section_type description
              use_advanced h) as [[?|?] ?]; reflexivity.
Qed.

(** ** The working set and the schema *)

Lemma comprehension_filter (keep : pyval -> result bool)
    (test : pyval -> bool) (l : list pyval) :
  Forall (fun n => keep n = Ok (test n)) l ->
  comprehension keep l = Ok (List.filter test l).
Proof.
  induction 1 as [|n l Hn _ IH]; [reflexivity|].
  cbn [comprehension List.filter]. rewrite Hn, IH.
  cbn [mbind result_bind]. destruct (test n); reflexivity.
Qed.

Lemma of_category_filter (tier : string) (W : list pyval) :
  Forall descriptor W ->
  of_category tier (PList W)
  = Ok (List.filter (Report.has_category tier) W).
Proof.
  intros HW. unfold of_category. cbn [Py.iter mbind result_bind].
  apply comprehension_filter.
  eapply Forall_impl; [exact HW|].
  intros n (nd & i & -> & _). reflexivity.
Qed.

Lemma for_each_collect (W : list pyval) (acc : pydict) :
  Forall descriptor W ->
  for_each
    (fun defaults setting =>
       has_default ← Py.contains "default" setting;
       has_value ←
         (if has_default : bool
          then value ← Py.getitem setting "default";
               Ok (negb (Py.is_none value))
          else Ok false) : result bool;
       if has_value : bool
       then value ← Py.getitem setting "default";
            key ← Py.getitem setting "id";
            Py.setitem defaults key value
       else Ok defaults)
    W acc
  = Ok (fold_left collect_default W acc).
Proof.
  intros HW. revert acc.
  induction HW as [|n W (nd & i & -> & Hid) _ IH]; intros acc;
    [reflexivity|].
  cbn [for_each fold_left].
  cbn [Py.contains Py.getitem collect_default mbind result_bind].
  unfold Py.dmem. rewrite Hid.
  destruct (Py.dict_get "default" nd) as [v|];
    cbn [mbind result_bind]; [|apply IH].
  destruct (Py.is_none v); cbn [negb mbind result_bind Py.setitem Py.hashable];
    apply IH.
Qed.

Lemma get_preset_defaults_run (W : list pyval) :
  Forall descriptor W ->
  _get_preset_defaults (PList W) = Ok (fold_left collect_default W []).
Proof. intros HW. apply for_each_collect, HW. Qed.

(** The schema of a working set of descriptors. *)
Lemma generate_schema_run (config : SectionConfig.t) (W : list pyval) :
  SectionConfig.settings config = PList W ->
  Forall descriptor W ->
  _generate_intelligent_schema config
  = Ok [ "name" :-> SectionConfig.name config;
         "tag" :-> ("section-" +:+ SectionConfig.type config);
         "class" :-> ("section-" +:+ SectionConfig.type config);
         "settings" :-> PList (by_tier W);
         "blocks" :-> SectionConfig.blocks config;
         "presets" :-> PList
           [ PDict [ "name" :-> SectionConfig.name config;
                     "category" :-> "Custom Sections";
                     "settings" :->
                       PDict (fold_left collect_default W []) ] ] ].
Proof.
  intros HS HW. unfold _generate_intelligent_schema, by_tier.
  rewrite HS, !of_category_filter, get_preset_defaults_run by assumption.
  cbn [mbind result_bind].
  destruct (List.filter (Report.has_category "advanced") W) as [|a adv].
  - cbn [Py.truthy]. rewrite !app_nil_r. reflexivity.
  - cbn. rewrite <- app_assoc. reflexivity.
Qed.

End generator_runs.

Section generator_claims.

Import SectionGenerator.








(* ---------------------------------------------------------------- *)
(** ** Preset defaults *)

Lemma dict_get_In (i : string) (v : pyval) (d : pydict) :
  Py.dict_get i d = Some v -> In (PStr i, v) d.
Proof.
  induction d as [|[k w] d IH]; cbn [Py.dict_get]; [discriminate|].
  destruct (Py.key_eqb i k) eqn:Hk.
  - apply key_eqb_str_inv in Hk. intros [= ->]. subst k. left. reflexivity.
  - intros H. right. auto.
Qed.

Lemma in_dict_set (j : string) (v0 : pyval) (d : pydict) (k v : pyval) :
  In (k, v) (Py.dict_set j v0 d) ->
  In (k, v) d \/ (k = PStr j /\ v = v0).
Proof.
  induction d as [|[k' w] d IH]; cbn [Py.dict_set].
  - intros [[= <- <-]|[]]. auto.
  - destruct (Py.key_eqb j k') eqn:Hk.
    + apply key_eqb_str_inv in Hk. subst k'.
      intros [[= <- <-]|H]; [auto|]. left. right. exact H.
    + intros [H|H]; [left; left; exact H|].
      destruct (IH H) as [?|?]; [left; right; assumption|auto].
Qed.

(** What one round of the loop does with a descriptor. *)
Lemma collect_default_cases (acc : pydict) (n : pyval) :
  descriptor n ->
  (collect_default acc n = acc
   /\ forall i v, ~ provides i v n)
  \/ (exists i v, provides i v n
        /\ collect_default acc n = Py.dict_set i v acc).
Proof.
  intros (nd & i & -> & Hid). unfold collect_default. rewrite Hid.
  destruct (Py.dict_get "default" nd) as [v|] eqn:Hd.
  - destruct v; cbn [Py.is_none];
      try (right; eexists i, _; split; [|reflexivity];
           exists nd; repeat split; [assumption..|discriminate]).
    left. split; [reflexivity|].
    intros i' v' (nd' & [= <-] & _ & Hd' & Hv'). congruence.
  - left. split; [reflexivity|].
    intros i' v' (nd' & [= <-] & _ & Hd' & _). congruence.
Qed.

Lemma provides_functional (n : pyval) (i i' : string) (v v' : pyval) :
  provides i v n -> provides i' v' n -> i = i' /\ v = v'.
Proof.
  intros (nd & -> & Hi & Hv & _) (nd' & [= <-] & Hi' & Hv' & _).
  split; congruence.
Qed.

Lemma collected_entries (W : list pyval) (acc : pydict) (k v : pyval) :
  Forall descriptor W ->
  In (k, v) (fold_left collect_default W acc) ->
  In (k, v) acc \/ exists i n, k = PStr i /\ In n W /\ provides i v n.
Proof.
  intros HW. revert acc.
  induction HW as [|n W Hn _ IH]; intros acc; cbn [fold_left]; [auto|].
  intros H. apply IH in H as [H|(i & n' & -> & Hin & Hp)].
  - destruct (collect_default_cases acc n Hn)
      as [[Heq _]|(i & v0 & Hp & Heq)]; rewrite Heq in H; [auto|].
    apply in_dict_set in H as [H|[-> ->]]; [auto|].
    right. exists i, n. split; [reflexivity|]. split; [left; reflexivity|].
    exact Hp.
  - right. exists i, n'. split; [reflexivity|]. split; [right; exact Hin|].
    exact Hp.
Qed.

Lemma collected_keeps (W : list pyval) (acc : pydict) (i : string) :
  Forall descriptor W ->
  Py.dict_get i acc <> None ->
  Py.dict_get i (fold_left collect_default W acc) <> None.
Proof.
  intros HW. revert acc.
  induction HW as [|n W Hn _ IH]; intros acc Hacc; cbn [fold_left]; [auto|].
  apply IH.
  destruct (collect_default_cases acc n Hn) as [[-> _]|(j & v0 & _ & ->)];
    [exact Hacc|].
  rewrite dict_get_set. destruct (String.eqb i j); [discriminate|exact Hacc].
Qed.

Lemma collected_has (W : list pyval) (acc : pydict) (i : string)
    (v n : pyval) :
  Forall descriptor W ->
  In n W -> provides i v n ->
  Py.dict_get i (fold_left collect_default W acc) <> None.
Proof.
  intros HW. revert acc.
  induction HW as [|n0 W Hn0 HW IH]; intros acc [] Hp; cbn [fold_left].
  - subst n0. apply collected_keeps; [exact HW|].
    destruct (collect_default_cases acc n Hn0)
      as [[_ Hno]|(j & v0 & Hp0 & ->)]; [destruct (Hno _ _ Hp)|].
    destruct (provides_functional _ _ _ _ _ Hp Hp0) as [<- _].
    rewrite dict_get_set_same. discriminate.
  - apply IH; assumption.
Qed.

(** C8: the schema has one preset, and its settings are the defaults of
    the working set: every entry is the id of a setting of the working set
    with the non-null default of that setting, and every setting that has a
    non-null default has an entry under its id, which holds that default
    when no other setting of that id has another one (ids are unique
    within a section). A setting whose default is null, as that of an
    image picker, has no entry of its own. *)
Theorem preset_defaults_exact (config : SectionConfig.t)
    (W : list pyval) :
  SectionConfig.settings config = PList W ->
  Forall descriptor W ->
  exists schema defaults,
    _generate_intelligent_schema config = Ok schema
    /\ Py.dict_get "presets" schema
       = Some (PList
           [ PDict [ "name" :-> SectionConfig.name config;
                     "category" :-> "Custom Sections";
                     "settings" :-> PDict defaults ] ])
    /\ _get_preset_defaults (PList W) = Ok defaults
    /\ (forall k v, In (k, v) defaults ->
          exists i n, k = PStr i /\ In n W /\ provides i v n)
    /\ (forall i v n, In n W -> provides i v n ->
          Py.dict_get i defaults <> None)
    /\ (forall i v n, In n W -> provides i v n ->
          (forall n' v', In n' W -> provides i v' n' -> v' = v) ->
          Py.dict_get i defaults = Some v).
Proof.
  intros HS HW.
  eexists _, (fold_left collect_default W []).
  split; [apply (generate_schema_run config W HS HW)|].
  split; [reflexivity|].
  split; [apply get_preset_defaults_run, HW|].
  assert (Hsound : forall k v,
    In (k, v) (fold_left collect_default W []) ->
    exists i n, k = PStr i /\ In n W /\ provides i v n).
  { intros k v H. apply collected_entries in H as [[]|H]; assumption. }
  split; [exact Hsound|].
  split; [intros i v n Hin Hp; eapply collected_has; eassumption|].
  intros i v n Hin Hp Huniq.
  destruct (Py.dict_get i (fold_left collect_default W [])) as [v'|] eqn:Hget.
  - apply dict_get_In, Hsound in Hget as (i' & n' & [= <-] & Hin' & Hp').
    f_equal. eapply Huniq; eassumption.
  - exfalso. eapply collected_has; eassumption.
Qed.

Lemma preset_defaults_exact_witness :
  SectionConfig.settings Samples.image_and_color_config
  = PList Samples.image_and_color
  /\ Forall descriptor Samples.image_and_color
  /\ _get_preset_defaults (PList Samples.image_and_color)
     = Ok [ "overlay_color" :-> "#000000" ]
  /\ Py.dict_get "overlay_color" [ "overlay_color" :-> PStr "#000000" ]
     = Some (PStr "#000000").
Proof.
  assert (HW : Forall descriptor Samples.image_and_color).
  { repeat constructor; eexists _, _; split; reflexivity. }
  split; [reflexivity|]. split; [exact HW|].
  destruct (preset_defaults_exact Samples.image_and_color_config
              Samples.image_and_color eq_refl HW)
    as (schema & defaults & _ & _ & Hrun & _ & _ & Hexact).
  assert (Hd : defaults = [ "overlay_color" :-> PStr "#000000" ]).
  { vm_compute in Hrun. injection Hrun as <-. reflexivity. }
  subst defaults. split; [reflexivity|].
  apply (Hexact "overlay_color" (PStr "#000000")
           (PDict [ "type" :-> "color"; "id" :-> "overlay_color";
                    "label" :-> "Overlay Color"; "default" :-> "#000000";
                    "required" :-> PBool false; "info" :-> "";
                    "category" :-> "recommended" ])).
  - right. left. reflexivity.
  - eexists. split; [reflexivity|]. split; [reflexivity|].
    split; [reflexivity|discriminate].
  - intros n' v' [<-|[<-|[]]] (nd & [= <-] & Hi & Hv & Hnn).
    + cbn in Hv. congruence.
    + cbn in Hv. congruence.
Defined.

(** The image picker and the color setting, from their raw
    specifications to the preset. *)
Example preset_of_image_and_color :
  mapM SectionTypeAnalyzer._normalize_setting
    [ PDict [ "id" :-> "background_image"; "type" :-> "image_picker" ];
      PDict [ "id" :-> "overlay_color"; "type" :-> "color" ] ]
  = Ok Samples.image_and_color
  /\ _get_preset_defaults (PList Samples.image_and_color)
     = Ok [ "overlay_color" :-> "#000000" ].
Proof. split; reflexivity. Qed.

End generator_claims.

(* ================================================================== *)
(** * More about normalization *)
(* ================================================================== *)

Section normalization_in_closed_form.

Import SectionTypeAnalyzer.

Lemma get_default_for_type_hashable (t : pyval) :
  Py.hashable t = true -> _get_default_for_type t = Ok (default_of t).
Proof.
  intros H. unfold default_of, _get_default_for_type, Py.get.
  rewrite H. reflexivity.
Qed.

Lemma get_default_for_type_unhashable (t : pyval) :
  Py.hashable t = false ->
  _get_default_for_type t = Raise (TypeError "unhashable type").
Proof.
  intros H. unfold _get_default_for_type, Py.get. rewrite H. reflexivity.
Qed.

Lemma normalize_setting_closed (d : pydict) (i : string) :
  Py.dict_get "id" d = Some (PStr i) ->
  Py.hashable (Py.dget d "type" "text") = true ->
  _normalize_setting (PDict d) = Ok (PDict (normalized_form d i)).
Proof.
  intros Hid Ht. unfold _normalize_setting, normalized_form.
  cbn [Py.get Py.hashable mbind result_bind Py.contains Py.getitem].
  rewrite Hid. cbn [Py.replace mbind result_bind].
  rewrite (get_default_for_type_hashable _ Ht). cbn [mbind result_bind].
  assert (Hdget : Py.dget d "id" (Py.dget d "name" "setting") = PStr i)
    by (unfold Py.dget at 1; rewrite Hid; reflexivity).
  rewrite Hdget. unfold Py.dmem.
  destruct (Py.is_str (Py.dget d "type" PNone) "select");
    destruct (Py.is_str (Py.dget d "type" PNone) "range");
    destruct (Py.dict_get "options" d);
    destruct (Py.dict_get "validation" d);
    reflexivity.
Qed.


Lemma normalize_setting_ok_inv (x n : pyval) :
  _normalize_setting x = Ok n ->
  exists d i,
    x = PDict d /\ Py.dict_get "id" d = Some (PStr i)
    /\ Py.hashable (Py.dget d "type" "text") = true
    /\ n = PDict (normalized_form d i).
Proof.
  destruct x as [| | | | |d]; try discriminate.
  destruct (Py.dict_get "id" d) as [[| | |i| |]|] eqn:Hid;
    try (unfold _normalize_setting;
         cbn [Py.get Py.hashable mbind result_bind Py.getitem];
         rewrite Hid; discriminate).
  destruct (Py.hashable (Py.dget d "type" "text")) eqn:Ht.
  - rewrite (normalize_setting_closed d i Hid Ht).
    intros [= <-]. exists d, i. auto.
  - unfold _normalize_setting.
    cbn [Py.get Py.hashable mbind result_bind Py.getitem].
    rewrite Hid. cbn [Py.replace mbind result_bind].
    rewrite (get_default_for_type_unhashable _ Ht). discriminate.
Qed.

(** X2: the id of a descriptor is the raw setting's own [id], always a
    string: the fallbacks on [name] and on ['setting'] never come into play.
    Its label is the raw label when there is one; when there is none and the
    id is an ASCII string, it is the id with underscores turned into spaces,
    title-cased. *)
Theorem normalized_id_and_label (x n : pyval) :
  _normalize_setting x = Ok n ->
  exists d nd i,
    x = PDict d /\ n = PDict nd
    /\ Py.dict_get "id" d = Some (PStr i)
    /\ Py.dict_get "id" nd = Some (PStr i)
    /\ (forall label,
          Py.dict_get "label" d = Some label ->
          Py.dict_get "label" nd = Some label)
    /\ (Py.dict_get "label" d = None ->
        Py.ascii_only i = true ->
        Py.dict_get "label" nd
        = Some (PStr (Py.title (Py.replace_char "_" " " i)))).
Proof.
  intros H. apply normalize_setting_ok_inv in H as (d & i & -> & Hid & _ & ->).
  exists d, (normalized_form d i), i.
  repeat split; try assumption.
  - intros label Hlabel. cbn. unfold Py.dget. rewrite Hlabel. reflexivity.
  - intros Hnone _. cbn. unfold Py.dget. rewrite Hnone. reflexivity.
Qed.

Lemma normalized_id_and_label_witness :
  _normalize_setting (PDict Samples.raw_heading)
  = Ok (PDict (normalized_form Samples.raw_heading "heading_text"))
  /\ Py.dict_get "label" Samples.raw_heading = None
  /\ Py.ascii_only "heading_text" = true
  /\ Py.dict_get "label" (normalized_form Samples.raw_heading "heading_text")
     = Some (PStr "Heading Text").
Proof.
  split; [reflexivity|]. split; [reflexivity|]. split; [reflexivity|].
  destruct (normalized_id_and_label (PDict Samples.raw_heading)
              (PDict (normalized_form Samples.raw_heading "heading_text"))
              eq_refl)
    as (d & nd & i & Hx & Hn & Hid & _ & _ & Hlabel).
  injection Hx as <-. injection Hn as <-.
  injection Hid as <-. exact (Hlabel eq_refl eq_refl).
Defined.

Lemma default_of_none (t : pyval) :
  Py.hashable t = true -> default_of t = PNone -> t = PStr "image_picker".
Proof.
  unfold default_of, _get_default_for_type, Py.get. intros ->.
  unfold Py.dget.
  destruct t as [| | |s| |]; try discriminate.
  cbn [Py.dict_get Py.key_eqb].
  destruct (String.eqb s "text"); [discriminate|].
  destruct (String.eqb s "textarea"); [discriminate|].
  destruct (String.eqb s "color"); [discriminate|].
  destruct (String.eqb s "image_picker") eqn:E.
  - apply String.eqb_eq in E. congruence.
  - destruct (String.eqb s "url"); [discriminate|].
    destruct (String.eqb s "checkbox"); [discriminate|].
    destruct (String.eqb s "range"); [discriminate|].
    destruct (String.eqb s "select"); discriminate.
Qed.

(** X3: a descriptor always has a default, and the default is null only
    when the raw setting gives a null default, or gives none and its type is
    [image_picker]. *)
Theorem normalized_default_null (x n : pyval) :
  _normalize_setting x = Ok n ->
  exists d nd,
    x = PDict d /\ n = PDict nd
    /\ Py.dict_get "default" nd <> None
    /\ (Py.dict_get "default" nd = Some PNone ->
        Py.dict_get "default" d = Some PNone
        \/ (Py.dict_get "default" d = None
            /\ Py.dict_get "type" d = Some (PStr "image_picker"))).
Proof.
  intros H. apply normalize_setting_ok_inv in H as (d & i & -> & Hid & Ht & ->).
  exists d, (normalized_form d i).
  split; [reflexivity|]. split; [reflexivity|].
  split; [discriminate|].
  cbn. unfold Py.dget at 1.
  destruct (Py.dict_get "default" d) as [v|]; cbn.
  - intros [= ->]. auto.
  - intros [= Hnone]. right. split; [reflexivity|].
    apply default_of_none in Hnone; [|exact Ht].
    unfold Py.dget in Hnone.
    destruct (Py.dict_get "type" d); cbn in Hnone; [congruence|discriminate].
Qed.

Lemma normalized_default_null_witness :
  _normalize_setting (PDict Samples.raw_image)
  = Ok (PDict (normalized_form Samples.raw_image "background_image"))
  /\ Py.dict_get "default"
       (normalized_form Samples.raw_image "background_image") = Some PNone
  /\ Py.dict_get "type" Samples.raw_image = Some (PStr "image_picker").
Proof.
  split; [reflexivity|]. split; [reflexivity|].
  destruct (normalized_default_null (PDict Samples.raw_image)
              (PDict (normalized_form Samples.raw_image "background_image"))
              eq_refl)
    as (d & nd & Hx & Hn & _ & Hnull).
  injection Hx as <-. injection Hn as <-.
  destruct (Hnull eq_refl) as [Hd|[_ Htype]]; [discriminate Hd|exact Htype].
Defined.

(** X4: beyond the seven standard entries a descriptor has [options] only
    when the raw setting is a [select] that has options, [min], [max] and
    [unit] only when it is a [range] (the raw values, or 0, 100 and the
    empty string), and [validation] only when the raw setting has one; it
    has no other entry. *)
Theorem normalized_extensions (x n : pyval) :
  _normalize_setting x = Ok n ->
  exists d nd,
    x = PDict d /\ n = PDict nd
    /\ Py.dict_get "options" nd
       = (if Py.is_str (Py.dget d "type" PNone) "select"
          then Py.dict_get "options" d else None)
    /\ (if Py.is_str (Py.dget d "type" PNone) "range"
        then Py.dict_get "min" nd = Some (Py.dget d "min" (PInt 0))
             /\ Py.dict_get "max" nd = Some (Py.dget d "max" (PInt 100))
             /\ Py.dict_get "unit" nd = Some (Py.dget d "unit" "")
        else Py.dict_get "min" nd = None
             /\ Py.dict_get "max" nd = None
             /\ Py.dict_get "unit" nd = None)
    /\ Py.dict_get "validation" nd = Py.dict_get "validation" d
    /\ length nd
       = (7 + (if Py.is_str (Py.dget d "type" PNone) "select"
               then if Py.dict_get "options" d is Some _ then 1 else 0
               else 0)
          + (if Py.is_str (Py.dget d "type" PNone) "range" then 3 else 0)
          + (if Py.dict_get "validation" d is Some _ then 1 else 0))%nat.
Proof.
  intros H. apply normalize_setting_ok_inv in H as (d & i & -> & Hid & Ht & ->).
  exists d, (normalized_form d i).
  split; [reflexivity|]. split; [reflexivity|].
  unfold normalized_form.
  destruct (Py.is_str (Py.dget d "type" PNone) "select");
    destruct (Py.is_str (Py.dget d "type" PNone) "range");
    destruct (Py.dict_get "options" d);
    destruct (Py.dict_get "validation" d);
    repeat split.
Qed.

Lemma normalized_extensions_witness :
  _normalize_setting (PDict Samples.raw_range)
  = Ok (PDict (normalized_form Samples.raw_range "height"))
  /\ Py.dict_get "min" (normalized_form Samples.raw_range "height")
     = Some (PInt 0)
  /\ Py.dict_get "max" (normalized_form Samples.raw_range "height")
     = Some (PInt 900)
  /\ Py.dict_get "unit" (normalized_form Samples.raw_range "height")
     = Some (PStr "px")
  /\ length (normalized_form Samples.raw_range "height") = 11%nat.
Proof.
  split; [reflexivity|].
  destruct (normalized_extensions (PDict Samples.raw_range)
              (PDict (normalized_form Samples.raw_range "height")) eq_refl)
    as (d & nd & Hx & Hn & _ & Hrange & _ & Hlen).
  injection Hx as <-. injection Hn as <-.
  cbn in Hrange. destruct Hrange as (Hmin & Hmax & Hunit).
  split; [exact Hmin|]. split; [exact Hmax|]. split; [exact Hunit|].
  exact Hlen.
Defined.




End normalization_in_closed_form.

(* ================================================================== *)
(** * More about scores and reports *)
(* ================================================================== *)

Section scoring_and_reports.

Import SectionTypeAnalyzer.

(** X6: the score is the plain sum of its five parts, so the final
    [min(score, 100)] never cuts anything off; and it is a multiple of 5.
    The parts depend on the truth value of four fields and on the length of
    the advanced list only. *)
Theorem score_is_the_sum (d : pydict) (s : Z) :
  _calculate_intelligence_score d = Ok s ->
  exists n,
    Py.len (Py.dget d "advancedSettings" (PList [])) = Ok n
    /\ s = (if Py.truthy (Py.dget d "essentialSettings" PNone) then 30 else 0)
           + (if Py.truthy (Py.dget d "recommendedSettings" PNone)
              then 25 else 0)
           + Z.min (5 * n) 20
           + (if Py.truthy (Py.dget d "suggestedBlocks" PNone) then 15 else 0)
           + (if Py.truthy (Py.dget d "commonUseCases" PNone) then 10 else 0)
    /\ (5 | s).
Proof.
  unfold _calculate_intelligence_score.
  destruct (Py.len (Py.dget d "advancedSettings" (PList []))) as [n|] eqn:Hn;
    cbn [mbind result_bind]; [|discriminate].
  pose proof (len_nonneg _ _ Hn) as Hpos.
  intros [= <-]. exists n. split; [reflexivity|].
  split.
  - destruct (Py.truthy (Py.dget d "essentialSettings" PNone));
      destruct (Py.truthy (Py.dget d "recommendedSettings" PNone));
      destruct (Py.truthy (Py.dget d "suggestedBlocks" PNone));
      destruct (Py.truthy (Py.dget d "commonUseCases" PNone));
      destruct (Z.ltb_spec 0 n); lia.
  - exists ((if Py.truthy (Py.dget d "essentialSettings" PNone)
             then 6 else 0)
            + (if Py.truthy (Py.dget d "recommendedSettings" PNone)
               then 5 else 0)
            + Z.min n 4
            + (if Py.truthy (Py.dget d "suggestedBlocks" PNone)
               then 3 else 0)
            + (if Py.truthy (Py.dget d "commonUseCases" PNone)
               then 2 else 0)).
    destruct (Py.truthy (Py.dget d "essentialSettings" PNone));
      destruct (Py.truthy (Py.dget d "recommendedSettings" PNone));
      destruct (Py.truthy (Py.dget d "suggestedBlocks" PNone));
      destruct (Py.truthy (Py.dget d "commonUseCases" PNone));
      destruct (Z.ltb_spec 0 n); lia.
Qed.

Lemma score_is_the_sum_witness :
  _calculate_intelligence_score Samples.hero_profile = Ok 70
  /\ exists n,
       Py.len (Py.dget Samples.hero_profile "advancedSettings" (PList []))
       = Ok n
       /\ 70 = 30 + 25 + Z.min (5 * n) 20 + 0 + 10
       /\ (5 | 70).
Proof.
  split; [reflexivity|].
  destruct (score_is_the_sum Samples.hero_profile 70 eq_refl)
    as (n & Hn & Hs & Hdiv).
  exists n. split; [exact Hn|]. split; [exact Hs|exact Hdiv].
Defined.

(** X7: for a profile whose five fields are lists (or absent) the score is
    0 exactly when all five lists are empty, and 100 exactly when the
    essential, recommended, suggested-blocks and use-case lists are not empty
    and there are at least four advanced settings. *)
Theorem score_extremes (d : pydict) (E R A B U : list pyval) :
  list_field d "essentialSettings" E ->
  list_field d "recommendedSettings" R ->
  list_field d "advancedSettings" A ->
  list_field d "suggestedBlocks" B ->
  list_field d "commonUseCases" U ->
  exists s,
    _calculate_intelligence_score d = Ok s
    /\ (s = 0 <-> E = [] /\ R = [] /\ A = [] /\ B = [] /\ U = [])
    /\ (s = 100
        <-> E <> [] /\ R <> [] /\ (4 <= length A)%nat /\ B <> [] /\ U <> []).
Proof.
  intros HE HR HA HB HU. exists (score_rule E R A B U).
  split; [apply calculate_score_rule; assumption|].
  unfold score_rule.
  destruct E, R, B, U; destruct A as [|a1 [|a2 [|a3 [|a4 A]]]];
    cbn [length]; split; split;
    try (intros (? & ? & ? & ? & ?)); try intros ?;
    try congruence; try lia;
    repeat split; try congruence; try lia.
Qed.

Lemma score_extremes_witness :
  list_field Samples.rich_profile "essentialSettings" Samples.four_settings
  /\ list_field Samples.rich_profile "recommendedSettings"
       Samples.four_settings
  /\ list_field Samples.rich_profile "advancedSettings" Samples.four_settings
  /\ list_field Samples.rich_profile "suggestedBlocks"
       [ PDict [ "type" :-> "slide" ] ]
  /\ list_field Samples.rich_profile "commonUseCases" [ PStr "Landing page" ]
  /\ _calculate_intelligence_score Samples.rich_profile = Ok 100.
Proof.
  repeat (split; [reflexivity|]).
  destruct (score_extremes Samples.rich_profile
              Samples.four_settings Samples.four_settings
              Samples.four_settings [ PDict [ "type" :-> "slide" ] ]
              [ PStr "Landing page" ]
              eq_refl eq_refl eq_refl eq_refl eq_refl)
    as (s & Hs & _ & Hfull).
  rewrite Hs. f_equal. apply Hfull.
  repeat split; try discriminate. cbn. lia.
Defined.

Lemma score_defined_when_organized (d o : pydict) :
  _organize_settings d = Ok o ->
  exists s, _calculate_intelligence_score d = Ok s.
Proof.
  intros H. apply organize_settings_inv in H as (E & R & A & _ & _ & HA & _).
  apply normalize_all_inv in HA as (xs & Hiter & _).
  unfold _calculate_intelligence_score.
  destruct (Py.dget d "advancedSettings" (PList [])); try discriminate;
    cbn [Py.len mbind result_bind]; eauto.
Qed.

(** X8: the analysis of a type of the catalog returns a report whenever
    [_organize_settings] accepts the profile, and raises the exception of
    [_organize_settings] otherwise: neither the score nor the tips nor the
    update add a failure. *)
Theorem analysis_fails_only_in_organize (this : self) (t : string)
    (h : heap) (l : loc) (d : pydict) :
  section_types this !! t = Some l ->
  h !! l = Some d ->
  match _organize_settings d with
  | Ok _ => exists report, (analyze_section_type this t h).1 = Ok report
  | Raise e => (analyze_section_type this t h).1 = Raise e
  end.
Proof.
  intros Hl Hd. rewrite analyze_run, Hl, Hd. cbn [fst].
  unfold report_of_profile.
  destruct (_organize_settings d) as [o|e] eqn:Ho; [|reflexivity].
  destruct (score_defined_when_organized _ _ Ho) as (s & Hs).
  apply organize_settings_inv in Ho as (E & R & A & _ & _ & _ & ->).
  cbn [Py.getitem Py.dict_get Py.key_eqb String.eqb Ascii.eqb Bool.eqb
       mbind result_bind Py.add].
  rewrite Hs. cbn [mbind result_bind]. eauto.
Qed.

Lemma analysis_fails_only_in_organize_witness :
  section_types (Samples.analyzer Samples.profile_without_id) !! "hero"
  = Some 0%nat
  /\ Samples.objects Samples.profile_without_id !! 0%nat
     = Some Samples.profile_without_id
  /\ _organize_settings Samples.profile_without_id = Raise (KeyError "id")
  /\ (analyze_section_type (Samples.analyzer Samples.profile_without_id)
        "hero" (Samples.objects Samples.profile_without_id)).1
     = Raise (KeyError "id").
Proof.
  split; [reflexivity|]. split; [reflexivity|]. split; [reflexivity|].
  exact (analysis_fails_only_in_organize
           (Samples.analyzer Samples.profile_without_id) "hero"
           (Samples.objects Samples.profile_without_id) 0%nat
           Samples.profile_without_id eq_refl eq_refl).
Defined.

Lemma tips_length (t : string) :
  length (_get_optimization_tips t)
  = if existsb (String.eqb t) four_with_tips then 3%nat else 0%nat.
Proof.
  unfold _get_optimization_tips, four_with_tips. cbn [existsb].
  destruct (String.eqb t "hero"); [reflexivity|].
  destruct (String.eqb t "features"); [reflexivity|].
  destruct (String.eqb t "testimonials"); [reflexivity|].
  destruct (String.eqb t "gallery"); reflexivity.
Qed.

Lemma dict_get_update_other (k : string) (d items : pydict) :
  Py.dict_get k items = None ->
  Forall (fun kv => exists j : string, kv.1 = PStr j) items ->
  Py.dict_get k (Py.dict_update d items) = Py.dict_get k d.
Proof.
  unfold Py.dict_update. revert d.
  induction items as [|[k' v] items IH]; intros d Hk Hs; [reflexivity|].
  cbn [fold_left fst snd]. inversion Hs as [|? ? (j & Hj) Hs']; subst.
  cbn in Hj. subst k'. cbn [Py.dict_get] in Hk.
  rewrite key_eqb_str in Hk.
  destruct (String.eqb k j) eqn:E; [discriminate|].
  rewrite IH by assumption. rewrite dict_get_set, E. reflexivity.
Qed.

(** X9: every report has a list of optimization tips: three for a type of
    the catalog named hero, features, testimonials or gallery, none for any
    other type of the catalog, and one for a type that is not in the
    catalog. *)
Theorem report_tips (this : self) (t : string) (h h' : heap)
    (report : pydict) :
  analyze_section_type this t h = (Ok report, h') ->
  exists tips,
    Py.dict_get "optimization_tips" report = Some (PList tips)
    /\ length tips
       = match section_types this !! t with
         | None => 1%nat
         | Some _ =>
             if existsb (String.eqb t) four_with_tips then 3%nat else 0%nat
         end.
Proof.
  intros H. apply analyze_inv in H
    as [(Hnone & -> & _)|(l & d & Hl & _ & Hr & _)].
  - rewrite Hnone. eexists. split; reflexivity.
  - rewrite Hl.
    apply report_of_profile_inv in Hr
      as (E & R & A & s & _ & _ & _ & _ & ->).
    exists (_get_optimization_tips t). split; [|apply tips_length].
    cbn [Py.dict_update fold_left fst snd]. rewrite !dict_get_set. reflexivity.
Qed.

Lemma report_tips_witness :
  analyze_section_type (Samples.analyzer Samples.hero_profile) "hero"
    (Samples.objects Samples.hero_profile)
  = (Ok Samples.hero_report,
     Samples.objects Samples.hero_profile ++ [Samples.hero_report])
  /\ exists tips,
       Py.dict_get "optimization_tips" Samples.hero_report
       = Some (PList tips)
       /\ length tips = 3%nat.
Proof.
  split; [vm_compute; reflexivity|].
  apply (report_tips (Samples.analyzer Samples.hero_profile) "hero"
           (Samples.objects Samples.hero_profile)
           (Samples.objects Samples.hero_profile ++ [Samples.hero_report])).
  vm_compute; reflexivity.
Defined.

(** X10: the report of a type of the catalog is its profile with six
    entries set: every other entry of the profile ([description],
    [commonUseCases], the raw settings lists, ...) is in the report
    unchanged; [suggested_blocks] is the profile's [suggestedBlocks], or the
    empty list; and [advanced_settings] is the organized advanced list. *)
Theorem report_keeps_profile (this : self) (t : string) (h h' : heap)
    (report : pydict) (l : loc) (d : pydict) :
  analyze_section_type this t h = (Ok report, h') ->
  section_types this !! t = Some l ->
  h !! l = Some d ->
  (forall k : string,
     ~ In k [ "intelligent_settings"; "suggested_settings";
              "advanced_settings"; "suggested_blocks";
              "intelligence_score"; "optimization_tips" ] ->
     Py.dict_get k report = Py.dict_get k d)
  /\ Py.dict_get "suggested_blocks" report
     = Some (Py.dget d "suggestedBlocks" (PList []))
  /\ exists A,
       Report.organized report "advanced" = Ok (PList A)
       /\ Py.dict_get "advanced_settings" report = Some (PList A).
Proof.
  intros H Hl Hd. apply analyze_inv in H
    as [(Hnone & _)|(l' & d' & Hl' & Hd' & Hr & _)]; [congruence|].
  assert (l' = l) by congruence. subst l'.
  assert (d' = d) by congruence. subst d'.
  apply report_of_profile_inv in Hr
    as (E & R & A & s & _ & _ & _ & _ & ->).
  split; [|split].
  - intros k Hk. apply dict_get_update_other.
    + cbn [Py.dict_get]. rewrite !key_eqb_str.
      repeat match goal with
             | |- context [String.eqb k ?lit] =>
                 destruct (String.eqb_spec k lit) as [->|_];
                 [exfalso; apply Hk; cbn; tauto|]
             end.
      reflexivity.
    + repeat constructor; eexists; reflexivity.
  - cbn [Py.dict_update fold_left fst snd]. rewrite !dict_get_set. reflexivity.
  - exists A. unfold Report.organized, Py.getitem.
    cbn [Py.dict_update fold_left fst snd]. rewrite !dict_get_set.
    split; reflexivity.
Qed.

Lemma report_keeps_profile_witness :
  analyze_section_type (Samples.analyzer Samples.hero_profile) "hero"
    (Samples.objects Samples.hero_profile)
  = (Ok Samples.hero_report,
     Samples.objects Samples.hero_profile ++ [Samples.hero_report])
  /\ section_types (Samples.analyzer Samples.hero_profile) !! "hero"
     = Some 0%nat
  /\ Samples.objects Samples.hero_profile !! 0%nat = Some Samples.hero_profile
  /\ Py.dict_get "description" Samples.hero_report
     = Py.dict_get "description" Samples.hero_profile
  /\ Py.dict_get "suggested_blocks" Samples.hero_report = Some (PList []).
Proof.
  split; [vm_compute; reflexivity|]. split; [reflexivity|].
  split; [reflexivity|].
  destruct (report_keeps_profile (Samples.analyzer Samples.hero_profile)
              "hero" (Samples.objects Samples.hero_profile)
              (Samples.objects Samples.hero_profile ++ [Samples.hero_report])
              Samples.hero_report 0%nat Samples.hero_profile)
    as (Hkeep & Hblocks & _);
    [vm_compute; reflexivity|reflexivity|reflexivity|].
  split; [|exact Hblocks].
  apply Hkeep. cbn. intros [H|[H|[H|[H|[H|[H|[]]]]]]]; discriminate H.
Defined.

End scoring_and_reports.

(* ================================================================== *)
(** * The constructor of the analyzer *)
(* ================================================================== *)

Section loading.

Import SectionTypeAnalyzer.

Lemma store_profiles_run (profiles : list (string * pydict))
    (acc : gmap string loc) (h : heap) :
  NoDup (map fst profiles) ->
  exists m,
    store_profiles profiles acc h = (Ok m, h ++ map snd profiles)
    /\ (forall name, ~ In name (map fst profiles) -> m !! name = acc !! name)
    /\ (forall i name profile,
          profiles !! i = Some (name, profile) ->
          m !! name = Some (length h + i)%nat).
Proof.
  revert acc h.
  induction profiles as [|[n0 p0] rest IH]; intros acc h Hnd.
  - exists acc. cbn. rewrite app_nil_r. repeat split; auto.
    intros i name profile H. discriminate H.
  - cbn [map fst] in Hnd. apply NoDup_cons in Hnd as [Hn0 Hnd].
    cbn [store_profiles]. cbv [mbind M_bind alloc].
    destruct (IH (<[n0 := length h]> acc) (h ++ [p0]) Hnd)
      as (m & Hrun & Hout & Hin).
    exists m. split; [|split].
    + rewrite Hrun. cbn [map snd]. rewrite <- app_assoc. reflexivity.
    + intros name Hname. cbn [map fst] in Hname.
      rewrite Hout by (intros ?; apply Hname; right; assumption).
      apply lookup_insert_ne. intros ->. apply Hname. left. reflexivity.
    + intros [|i] name profile Hi; cbn in Hi.
      * injection Hi as <- <-.
        rewrite Hout by (rewrite <- list_elem_of_In; exact Hn0).
        rewrite lookup_insert_eq. f_equal. lia.
      * rewrite (Hin i name profile Hi). rewrite length_app. cbn. f_equal. lia.
Qed.

(** X12: from a catalog document whose type names are distinct the
    constructor builds an analyzer that knows exactly the types of the
    document, each with its own profile: the profiles are added to the
    store, a name of the document leads to its profile, and any other name
    is unknown. A document without [sectionTypes] gives an analyzer that
    knows no type. *)
Theorem init_loads_profiles (files : string -> read_outcome) (path : string)
    (doc : config_document) (h : heap) :
  files path = Loaded doc ->
  NoDup (map fst (default [] (sectionTypes doc))) ->
  exists this,
    __init__ files path h
    = (Ok this, h ++ map snd (default [] (sectionTypes doc)))
    /\ intelligence_config this = doc
    /\ (forall name,
          ~ In name (map fst (default [] (sectionTypes doc))) ->
          section_types this !! name = None)
    /\ (forall name profile,
          In (name, profile) (default [] (sectionTypes doc)) ->
          exists l,
            section_types this !! name = Some l
            /\ (h ++ map snd (default [] (sectionTypes doc))) !! l
               = Some profile).
Proof.
  intros Hfile Hnd.
  destruct (store_profiles_run _ ∅ h Hnd) as (m & Hrun & Hout & Hin).
  eexists. split; [|split; [|split]].
  - unfold __init__, _load_intelligence_config. rewrite Hfile.
    cbv [mbind M_bind lift]. rewrite Hrun. reflexivity.
  - reflexivity.
  - intros name Hname. cbn [section_types]. rewrite Hout by assumption.
    apply lookup_empty.
  - intros name profile Hp. cbn [section_types].
    apply list_elem_of_In, list_elem_of_lookup in Hp as [i Hi].
    exists (length h + i)%nat. split; [eapply Hin, Hi|].
    rewrite lookup_app_r by lia.
    replace (length h + i - length h)%nat with i by lia.
    rewrite list_lookup_fmap, Hi. reflexivity.
Qed.

Lemma init_loads_profiles_witness :
  (fun _ : string => Loaded (Samples.document Samples.hero_profile))
    "section-intelligence-config.json"
  = Loaded (Samples.document Samples.hero_profile)
  /\ NoDup (map fst
       (default [] (sectionTypes (Samples.document Samples.hero_profile))))
  /\ exists this,
       __init__ (fun _ => Loaded (Samples.document Samples.hero_profile))
         "section-intelligence-config.json" []
       = (Ok this, [ Samples.hero_profile ])
       /\ section_types this !! "widget" = None
       /\ exists l,
            section_types this !! "hero" = Some l
            /\ [ Samples.hero_profile ] !! l = Some Samples.hero_profile.
Proof.
  assert (Hnd : NoDup (map fst
    (default [] (sectionTypes (Samples.document Samples.hero_profile)))))
    by (cbn; apply NoDup_singleton).
  split; [reflexivity|]. split; [exact Hnd|].
  destruct (init_loads_profiles
              (fun _ => Loaded (Samples.document Samples.hero_profile))
              "section-intelligence-config.json"
              (Samples.document Samples.hero_profile) [] eq_refl Hnd)
    as (this & Hrun & _ & Hout & Hin).
  exists this. split; [exact Hrun|]. split.
  - apply Hout. cbn. intros [H|[]]. discriminate H.
  - apply (Hin "hero" Samples.hero_profile). left. reflexivity.
Defined.

End loading.

(* ================================================================== *)
(** * More about the generator *)
(* ================================================================== *)

Section generator_extras.

Import SectionGenerator.

Lemma section_config_of_exact (this : self) (section_name t : string)
    (description : pyval) (use_advanced : bool) (h h' : heap)
    (report : pydict) (E R A : list pyval) :
  SectionTypeAnalyzer.analyze_section_type (analyzer this) t h
  = (Ok report, h') ->
  Report.organized report "essential" = Ok (PList E) ->
  Report.organized report "recommended" = Ok (PList R) ->
  Report.organized report "advanced" = Ok (PList A) ->
  Report.suggested_settings report = PList (E ++ R) ->
  section_config_of this section_name t description use_advanced h
  = (Ok {| SectionConfig.name := section_name;
           SectionConfig.type := t;
           SectionConfig.description :=
             if Py.truthy description then description
             else Py.dget report "description"
                    ("Custom " +:+ t +:+ " section");
           SectionConfig.settings :=
             PList (if use_advanced then E ++ R ++ A else E ++ R);
           SectionConfig.blocks := Report.suggested_blocks report;
           SectionConfig.presets := PList [];
           SectionConfig.intelligence_config := report |},
     h').
Proof.
  intros Hrun HE HR HA HS.
  unfold section_config_of. cbv [mbind M_bind lift]. rewrite Hrun.
  destruct use_advanced; cbn [andb].
  - unfold Report.organized in HE, HR, HA. unfold Py.dmem.
    cbn [Py.getitem] in HE, HR, HA |- *.
    destruct (Py.dict_get "intelligent_settings" report) as [organized|];
      [|discriminate HE].
    cbn [mbind result_bind] in HE, HR, HA |- *.
    rewrite HE, HR, HA. cbn [mbind result_bind Py.add Py.extend Py.iter].
    rewrite <- app_assoc. destruct (Py.truthy description); reflexivity.
  - fold (Report.suggested_settings report). rewrite HS.
    destruct (Py.truthy description); reflexivity.
Qed.

(** X13: the [SectionConfig] that [generate_section] builds from a report.
    Its settings are the organized essential, recommended and, when
    [use_advanced] is set, advanced settings, in that order; its blocks are
    the report's suggested blocks; its description is the one passed when
    that is not empty or [None], else the report's [description], else
    "Custom <type> section"; the report itself is kept as
    [intelligence_config]. *)
Theorem section_config_fields (this : self) (section_name t : string)
    (description : pyval) (use_advanced : bool) (h h' : heap)
    (report : pydict) :
  SectionTypeAnalyzer.analyze_section_type (analyzer this) t h
  = (Ok report, h') ->
  exists E R A,
    Report.organized report "essential" = Ok (PList E)
    /\ Report.organized report "recommended" = Ok (PList R)
    /\ Report.organized report "advanced" = Ok (PList A)
    /\ section_config_of this section_name t description use_advanced h
       = (Ok {| SectionConfig.name := section_name;
                SectionConfig.type := t;
                SectionConfig.description :=
                  if Py.truthy description then description
                  else Py.dget report "description"
                         ("Custom " +:+ t +:+ " section");
                SectionConfig.settings :=
                  PList (if use_advanced then E ++ R ++ A else E ++ R);
                SectionConfig.blocks := Report.suggested_blocks report;
                SectionConfig.presets := PList [];
                SectionConfig.intelligence_config := report |},
          h').
Proof.
  intros Hrun.
  destruct (report_shape _ _ _ _ _ Hrun)
    as (E & R & A & HE & HR & HA & HS & _).
  exists E, R, A. split; [exact HE|]. split; [exact HR|]. split; [exact HA|].
  apply section_config_of_exact; assumption.
Qed.

Lemma section_config_fields_witness :
  SectionTypeAnalyzer.analyze_section_type
    (analyzer (Samples.generator Samples.hero_profile)) "hero"
    (Samples.objects Samples.hero_profile)
  = (Ok Samples.hero_report,
     Samples.objects Samples.hero_profile ++ [Samples.hero_report])
  /\ exists config,
       (section_config_of (Samples.generator Samples.hero_profile)
          "hero-banner" "hero" PNone false
          (Samples.objects Samples.hero_profile)).1 = Ok config
       /\ SectionConfig.description config = PStr "Hero banner"
       /\ SectionConfig.blocks config = PList [].
Proof.
  split; [vm_compute; reflexivity|].
  destruct (section_config_fields (Samples.generator Samples.hero_profile)
              "hero-banner" "hero" PNone false
              (Samples.objects Samples.hero_profile)
              (Samples.objects Samples.hero_profile ++ [Samples.hero_report])
              Samples.hero_report)
    as (E & R & A & _ & _ & _ & Hconfig); [vm_compute; reflexivity|].
  eexists. rewrite Hconfig. split; [reflexivity|]. split; reflexivity.
Defined.

Lemma filter_in_tier_split (W : list pyval) :
  by_tier W ≡ₚ List.filter in_tier W.
Proof.
  unfold by_tier. induction W as [|s W IH]; [reflexivity|].
  cbn [List.filter]. unfold in_tier at 1.
  destruct s as [| | | | |d]; cbn [Report.has_category orb]; try exact IH.
  unfold Py.is_str.
  destruct (Py.dget d "category" PNone) as [| | |c| |];
    cbn [orb]; try exact IH.
  destruct (String.eqb_spec c "essential") as [->|_]; cbn [String.eqb orb].
  { cbn. constructor. exact IH. }
  destruct (String.eqb_spec c "recommended") as [->|_]; cbn [orb].
  { cbn. rewrite <- IH. symmetry. apply Permutation_middle. }
  destruct (String.eqb_spec c "advanced") as [->|_]; cbn [orb].
  { cbn. rewrite <- IH, !app_assoc. symmetry. apply Permutation_middle. }
  exact IH.
Qed.

(** X14: the settings of the schema are, in another order, the settings of
    the working set whose category is essential, recommended or advanced,
    each listed once; a setting of any other category is left out of the
    schema. *)
Theorem schema_lists_tiered_settings (config : SectionConfig.t)
    (W : list pyval) :
  SectionConfig.settings config = PList W ->
  Forall descriptor W ->
  exists schema listed,
    _generate_intelligent_schema config = Ok schema
    /\ Py.dict_get "settings" schema = Some (PList listed)
    /\ listed ≡ₚ List.filter in_tier W
    /\ (length listed <= length W)%nat.
Proof.
  intros HS HW. eexists _, (by_tier W).
  split; [apply (generate_schema_run config W HS HW)|].
  split; [reflexivity|]. split; [apply filter_in_tier_split|].
  rewrite filter_in_tier_split. apply filter_length_le.
Qed.

Lemma schema_lists_tiered_settings_witness :
  SectionConfig.settings Samples.image_and_color_config
  = PList Samples.image_and_color
  /\ Forall descriptor Samples.image_and_color
  /\ exists schema listed,
       _generate_intelligent_schema Samples.image_and_color_config = Ok schema
       /\ Py.dict_get "settings" schema = Some (PList listed)
       /\ listed ≡ₚ List.filter in_tier Samples.image_and_color
       /\ (length listed <= length Samples.image_and_color)%nat.
Proof.
  assert (HW : Forall descriptor Samples.image_and_color).
  { repeat constructor; eexists _, _; split; reflexivity. }
  split; [reflexivity|]. split; [exact HW|].
  apply (schema_lists_tiered_settings Samples.image_and_color_config
           Samples.image_and_color eq_refl HW).
Defined.

(** ** Preset keys *)

Lemma dict_set_keys (j : string) (v : pyval) (d : pydict) :
  map fst (Py.dict_set j v d)
  = if Py.dmem j d then map fst d else map fst d ++ [PStr j].
Proof.
  unfold Py.dmem. induction d as [|[k w] d IH]; [reflexivity|].
  cbn [Py.dict_set Py.dict_get].
  destruct (Py.key_eqb j k) eqn:Hk; [reflexivity|].
  cbn [map fst]. rewrite IH.
  destruct (Py.dict_get j d); reflexivity.
Qed.

Lemma dict_get_none_not_key (j : string) (d : pydict) :
  Py.dict_get j d = None -> ~ In (PStr j) (map fst d).
Proof.
  induction d as [|[k w] d IH]; cbn [Py.dict_get map fst]; [tauto|].
  destruct (Py.key_eqb j k) eqn:Hk; [discriminate|].
  intros Hd [Heq|Hin]; [|exact (IH Hd Hin)].
  cbn in Heq. subst k. rewrite key_eqb_str, String.eqb_refl in Hk.
  discriminate.
Qed.

Lemma dict_set_nodup (j : string) (v : pyval) (d : pydict) :
  NoDup (map fst d) -> NoDup (map fst (Py.dict_set j v d)).
Proof.
  intros Hd. rewrite dict_set_keys. unfold Py.dmem.
  destruct (Py.dict_get j d) eqn:Hj; [exact Hd|].
  apply NoDup_app. split; [exact Hd|]. split.
  - intros k Hk Hk'. apply list_elem_of_In in Hk.
    apply list_elem_of_singleton in Hk'. subst k.
    exact (dict_get_none_not_key _ _ Hj Hk).
  - apply NoDup_singleton.
Qed.

Lemma collected_nodup (W : list pyval) (acc : pydict) :
  Forall descriptor W ->
  NoDup (map fst acc) ->
  NoDup (map fst (fold_left collect_default W acc)).
Proof.
  intros HW. revert acc.
  induction HW as [|n W Hn _ IH]; intros acc Hacc; cbn [fold_left]; [auto|].
  apply IH.
  destruct (collect_default_cases acc n Hn) as [[-> _]|(j & v0 & _ & ->)];
    [exact Hacc|apply dict_set_nodup, Hacc].
Qed.

(** X15: the preset defaults of a working set of descriptors have at most
    one entry per id, whatever ids the settings share, and so no more
    entries than there are settings. *)
Theorem preset_defaults_one_entry_per_id (W : list pyval) :
  Forall descriptor W ->
  exists defaults,
    _get_preset_defaults (PList W) = Ok defaults
    /\ NoDup (map fst defaults)
    /\ (length defaults <= length W)%nat.
Proof.
  intros HW. exists (fold_left collect_default W []).
  split; [apply get_preset_defaults_run, HW|].
  split; [apply collected_nodup; [exact HW|constructor]|].
  assert (Hlen : forall acc,
    (length (fold_left collect_default W acc) <= length acc + length W)%nat).
  { clear -HW. induction HW as [|n W Hn _ IH]; intros acc; cbn [fold_left].
    - cbn. lia.
    - specialize (IH (collect_default acc n)).
      assert (length (collect_default acc n) <= S (length acc))%nat.
      { destruct (collect_default_cases acc n Hn)
          as [[-> _]|(j & v0 & _ & ->)]; [lia|].
        rewrite <- (length_map fst), dict_set_keys.
        destruct (Py.dmem j acc); rewrite ?length_app, length_map; cbn; lia. }
      cbn [length]. lia. }
  apply (Hlen []).
Qed.

Lemma preset_defaults_one_entry_per_id_witness :
  Forall descriptor (Samples.image_and_color ++ Samples.image_and_color)
  /\ exists defaults,
       _get_preset_defaults
         (PList (Samples.image_and_color ++ Samples.image_and_color))
       = Ok defaults
       /\ NoDup (map fst defaults)
       /\ (length defaults <= 4)%nat.
Proof.
  assert (HW : Forall descriptor
                 (Samples.image_and_color ++ Samples.image_and_color)).
  { repeat constructor; eexists _, _; split; reflexivity. }
  split; [exact HW|].
  apply (preset_defaults_one_entry_per_id _ HW).
Defined.

(** ** When the preset cannot be built *)

(** X16: [_get_preset_defaults] accepts a list of dictionaries exactly when
    every one of them that has a non-null default also has an id that can be
    a dictionary key; a setting without a default, or with a null one, needs
    no id. *)
Theorem preset_defaults_defined (ds : list pydict) :
  is_ok (_get_preset_defaults (PList (map PDict ds))) = forallb preset_ok ds.
Proof.
  unfold _get_preset_defaults. cbn [Py.iter mbind result_bind].
  generalize (@nil (pyval * pyval)).
  induction ds as [|d ds IH]; intros acc; [reflexivity|].
  cbn [map for_each forallb].
  cbn [Py.contains Py.getitem mbind result_bind].
  unfold preset_ok at 1, has_default, Py.dmem.
  destruct (Py.dict_get "default" d) as [v|]; cbn [mbind result_bind negb orb];
    [|apply IH].
  destruct (Py.is_none v); cbn [negb orb mbind result_bind]; [apply IH|].
  destruct (Py.dict_get "id" d) as [k|]; cbn [mbind result_bind];
    [|reflexivity].
  unfold Py.setitem. destruct (Py.hashable k); cbn [andb]; [apply IH|].
  reflexivity.
Qed.

(** ** Unknown types *)

(** X17: for a type that is not in the catalog the schema has no setting,
    no block and an empty preset, with or without the advanced settings:
    the four settings of the generic configuration do not reach it. *)
Theorem generic_schema_is_empty (this : self) (section_name t : string)
    (description : pyval) (use_advanced : bool) (h : heap) :
  SectionTypeAnalyzer.section_types (analyzer this) !! t = None ->
  schema_of this section_name t description use_advanced h
  = (Ok [ "name" :-> section_name;
          "tag" :-> ("section-" +:+ t);
          "class" :-> ("section-" +:+ t);
          "settings" :-> PList [];
          "blocks" :-> PList [];
          "presets" :-> PList
            [ PDict [ "name" :-> section_name;
                      "category" :-> "Custom Sections";
                      "settings" :-> PDict [] ] ] ],
     h).
Proof.
  intros Hnone. unfold schema_of, section_config_of.
  cbv [mbind M_bind lift]. rewrite analyze_run, Hnone.
  destruct use_advanced; destruct (Py.truthy description); reflexivity.
Qed.

Lemma generic_schema_is_empty_witness :
  SectionTypeAnalyzer.section_types
    (analyzer Samples.generator_without_catalog) !! "widget" = None
  /\ (schema_of Samples.generator_without_catalog "my-widget" "widget"
        PNone true []).1
     = Ok [ "name" :-> "my-widget";
            "tag" :-> "section-widget";
            "class" :-> "section-widget";
            "settings" :-> PList [];
            "blocks" :-> PList [];
            "presets" :-> PList
              [ PDict [ "name" :-> "my-widget";
                        "category" :-> "Custom Sections";
                        "settings" :-> PDict [] ] ] ].
Proof.
  split; [reflexivity|].
  rewrite (generic_schema_is_empty Samples.generator_without_catalog
             "my-widget" "widget" PNone true [] eq_refl).
  reflexivity.
Defined.

(** ** The advanced flag *)

Lemma by_tier_sublist (W A : list pyval) :
  by_tier W `sublist_of` by_tier (W ++ A).
Proof.
  unfold by_tier. rewrite !List.filter_app.
  repeat apply sublist_app; apply sublist_inserts_r; reflexivity.
Qed.

Lemma schema_of_run (this : self) (section_name t : string)
    (description : pyval) (use_advanced : bool) (h h' : heap)
    (report : pydict) (E R A : list pyval) :
  SectionTypeAnalyzer.analyze_section_type (analyzer this) t h
  = (Ok report, h') ->
  Report.organized report "essential" = Ok (PList E) ->
  Report.organized report "recommended" = Ok (PList R) ->
  Report.organized report "advanced" = Ok (PList A) ->
  Report.suggested_settings report = PList (E ++ R) ->
  Forall descriptor (E ++ R ++ A) ->
  exists schema,
    schema_of this section_name t description use_advanced h = (Ok schema, h')
    /\ Py.dict_get "settings" schema
       = Some (PList (by_tier (if use_advanced then E ++ R ++ A else E ++ R))).
Proof.
  intros Hrun HE HR HA HS HD.
  assert (HW : Forall descriptor
                 (if use_advanced then E ++ R ++ A else E ++ R)).
  { destruct use_advanced; [exact HD|].
    apply Forall_app in HD as [HDE HDRA].
    apply Forall_app in HDRA as [HDR _].
    apply Forall_app. split; assumption. }
  eexists. split.
  - unfold schema_of. cbv [mbind M_bind lift].
    rewrite (section_config_of_exact this section_name t description
               use_advanced h h' report E R A Hrun HE HR HA HS).
    erewrite generate_schema_run; [reflexivity|reflexivity|exact HW].
  - reflexivity.
Qed.

(** X18: turning the advanced settings on only adds settings to the schema:
    the settings listed without them are listed with them too, in the same
    relative order; and when the report has no advanced setting the two
    schemas are the same. *)
Theorem advanced_flag_only_adds (this : self) (section_name t : string)
    (description : pyval) (h h' : heap) (report : pydict) :
  SectionTypeAnalyzer.analyze_section_type (analyzer this) t h
  = (Ok report, h') ->
  exists schema_without schema_with listed_without listed_with,
    schema_of this section_name t description false h
    = (Ok schema_without, h')
    /\ schema_of this section_name t description true h
       = (Ok schema_with, h')
    /\ Py.dict_get "settings" schema_without = Some (PList listed_without)
    /\ Py.dict_get "settings" schema_with = Some (PList listed_with)
    /\ listed_without `sublist_of` listed_with
    /\ (Report.organized report "advanced" = Ok (PList []) ->
        schema_with = schema_without).
Proof.
  intros Hrun.
  destruct (report_shape _ _ _ _ _ Hrun)
    as (E & R & A & HE & HR & HA & HS & HD).
  destruct (schema_of_run this section_name t description false h h' report
              E R A Hrun HE HR HA HS HD) as (s0 & Hs0 & Hl0).
  destruct (schema_of_run this section_name t description true h h' report
              E R A Hrun HE HR HA HS HD) as (s1 & Hs1 & Hl1).
  eexists s0, s1, _, _.
  split; [exact Hs0|]. split; [exact Hs1|].
  split; [exact Hl0|]. split; [exact Hl1|].
  split.
  - rewrite (app_assoc E R A). apply by_tier_sublist.
  - intros HA'. rewrite HA in HA'. injection HA' as ->.
    revert Hs0 Hs1. unfold schema_of. cbv [mbind M_bind lift].
    rewrite (section_config_of_exact this section_name t description false
               h h' report E R [] Hrun HE HR HA HS).
    rewrite (section_config_of_exact this section_name t description true
               h h' report E R [] Hrun HE HR HA HS).
    rewrite app_nil_r. intros H0 H1. rewrite H0 in H1. congruence.
Qed.

Lemma advanced_flag_only_adds_witness :
  SectionTypeAnalyzer.analyze_section_type
    (analyzer (Samples.generator Samples.hero_profile)) "hero"
    (Samples.objects Samples.hero_profile)
  = (Ok Samples.hero_report,
     Samples.objects Samples.hero_profile ++ [Samples.hero_report])
  /\ exists schema_without schema_with listed_without listed_with,
       schema_of (Samples.generator Samples.hero_profile) "hero-banner"
         "hero" PNone false (Samples.objects Samples.hero_profile)
       = (Ok schema_without,
          Samples.objects Samples.hero_profile ++ [Samples.hero_report])
       /\ schema_of (Samples.generator Samples.hero_profile) "hero-banner"
            "hero" PNone true (Samples.objects Samples.hero_profile)
          = (Ok schema_with,
             Samples.objects Samples.hero_profile ++ [Samples.hero_report])
       /\ Py.dict_get "settings" schema_without = Some (PList listed_without)
       /\ Py.dict_get "settings" schema_with = Some (PList listed_with)
       /\ listed_without `sublist_of` listed_with
       /\ (Report.organized Samples.hero_report "advanced" = Ok (PList []) ->
           schema_with = schema_without).
Proof.
  split; [vm_compute; reflexivity|].
  apply (advanced_flag_only_adds (Samples.generator Samples.hero_profile)
           "hero-banner" "hero" PNone
           (Samples.objects Samples.hero_profile)).
  vm_compute; reflexivity.
Defined.

End generator_extras.

(* ================================================================== *)
(** * generate_section, save_section and main *)
(* ================================================================== *)

Section generation_and_main.

Import SectionGenerator.

(** X19: the exception of [generate_section] is the exception of the
    analysis when the analysis raises, and otherwise the [AttributeError]
    on [_generate_gallery_template]: between the analysis and the template
    nothing fails, for the schema of a report is always built. The store is
    left as the analysis leaves it. *)
Theorem generate_section_exception (this : self)
    (section_name t : string) (description : pyval) (use_advanced : bool)
    (h : heap) :
  generate_section this section_name t description use_advanced h
  = match SectionTypeAnalyzer.analyze_section_type (analyzer this) t h with
    | (Ok _, h') => (Raise (AttributeError "_generate_gallery_template"), h')
    | (Raise e, h') => (Raise e, h')
    end.
Proof.
  destruct (SectionTypeAnalyzer.analyze_section_type (analyzer this) t h)
    as [[report|e] h'] eqn:Hrun.
  - destruct (report_shape _ _ _ _ _ Hrun)
      as (E & R & A & HE & HR & HA & HS & HD).
    assert (HW : Forall descriptor
                   (if use_advanced then E ++ R ++ A else E ++ R)).
    { destruct use_advanced; [exact HD|].
      apply Forall_app in HD as [HDE HDRA].
      apply Forall_app in HDRA as [HDR _].
      apply Forall_app. split; assumption. }
    unfold generate_section. cbv [mbind M_bind lift].
    rewrite (section_config_of_exact this section_name t description
               use_advanced h h' report E R A Hrun HE HR HA HS).
    rewrite generate_liquid_raises.
    erewrite generate_schema_run; [reflexivity|reflexivity|exact HW].
  - unfold generate_section, section_config_of. cbv [mbind M_bind lift].
    rewrite Hrun. reflexivity.
Qed.

Lemma generate_section_raises (this : self)
    (section_name t : string) (description : pyval) (use_advanced : bool)
    (h : heap) :
  exists e h',
    generate_section this section_name t description use_advanced h
    = (Raise e, h').
Proof.
  unfold generate_section. cbv [mbind M_bind lift].
  destruct (section_config_of this section_name t description use_advanced h)
    as [[config|e] h']; [|eauto].
  rewrite generate_liquid_raises.
  destruct (_generate_intelligent_schema config); eauto.
Qed.

Lemma store_profiles_succeeds (profiles : list (string * pydict))
    (acc : gmap string loc) (h : heap) :
  exists m,
    SectionTypeAnalyzer.store_profiles profiles acc h
    = (Ok m, h ++ map snd profiles).
Proof.
  revert acc h. induction profiles as [|[n0 p0] rest IH]; intros acc h.
  - exists acc. cbn. rewrite app_nil_r. reflexivity.
  - cbn [SectionTypeAnalyzer.store_profiles]. cbv [mbind M_bind alloc].
    destruct (IH (<[n0 := length h]> acc) (h ++ [p0])) as (m & Hrun).
    exists m. rewrite Hrun. cbn [map snd]. rewrite <- app_assoc. reflexivity.
Qed.

Lemma analyzer_init_outcome
    (files : string -> SectionTypeAnalyzer.read_outcome) (path : string)
    (h : heap) :
  (exists e,
     files path = SectionTypeAnalyzer.OtherFailure e
     /\ SectionTypeAnalyzer.__init__ files path h = (Raise e, h))
  \/ (exists this h',
        SectionTypeAnalyzer.__init__ files path h = (Ok this, h')).
Proof.
  unfold SectionTypeAnalyzer.__init__,
    SectionTypeAnalyzer._load_intelligence_config.
  cbv [mbind M_bind lift].
  destruct (files path) as [| |e|doc]; [right|right|left|right];
    try (exists e; split; reflexivity);
    match goal with
    | |- context [SectionTypeAnalyzer.store_profiles ?ps ?acc ?hh] =>
        destruct (store_profiles_succeeds ps acc hh) as (m & ->)
    end; eexists _, _; reflexivity.
Qed.

Lemma main_analyze_and_generate_raises
    (files : string -> SectionTypeAnalyzer.read_outcome)
    (generator : self) (args : Args.t) (h : heap) :
  exists e h', main_analyze_and_generate files generator args h = (Raise e, h').
Proof.
  unfold main_analyze_and_generate. cbv [mbind M_bind lift].
  destruct (SectionTypeAnalyzer.__init__ files
              "section-intelligence-config.json" h)
    as [[analyzer|e] h1]; [|eauto].
  destruct (SectionTypeAnalyzer.analyze_section_type analyzer
              (Args.type args) h1) as [[analysis|e] h2]; [|eauto].
  destruct (count_of_tier analysis "essential"); [|eauto].
  destruct (count_of_tier analysis "recommended"); [|eauto].
  destruct (if Args.advanced args
            then count_of_tier analysis "advanced" else Ok 0); [|eauto].
  destruct (Py.len (Py.dget analysis "suggested_blocks" (PList [])));
    [|eauto].
  match goal with
  | |- context [match ?r with Ok _ => _ | Raise _ => _ end] =>
      lazymatch r with
      | context [Py.truthy] => destruct r; [|eauto]
      end
  end.
  destruct (generate_section_raises generator (Args.name args)
              (Args.type args) (Args.description args) (Args.advanced args)
              h2) as (e & h3 & ->).
  eauto.
Qed.

(** X20: [main] never returns 0 and never asks anything of the file
    system. With a type outside the eight valid ones it returns 1 at once,
    without reading the catalog. With a valid type it returns 1, because
    the [try] block cannot get past [generate_section]; unless reading the
    catalog raises something else than [FileNotFoundError] and
    [JSONDecodeError], which leaves the constructor of the generator, outside
    the [try] block, and so leaves [main]. *)
Theorem main_never_succeeds
    (files : string -> SectionTypeAnalyzer.read_outcome) (fs : file_system)
    (args : Args.t) (h : heap) (asked : list fs_event) :
  let '(outcome, h', asked') := main files fs args h asked in
  asked' = asked
  /\ (outcome = Return 1
      \/ exists e,
           files "section-intelligence-config.json"
           = SectionTypeAnalyzer.OtherFailure e
           /\ outcome = Uncaught e)
  /\ (existsb (String.eqb (Args.type args)) valid_types = false ->
      outcome = Return 1 /\ h' = h).
Proof.
  unfold main.
  destruct (existsb (String.eqb (Args.type args)) valid_types) eqn:Hvalid;
    cbn [negb]; [|auto].
  unfold SectionGenerator.__init__. cbv [mbind M_bind].
  destruct (analyzer_init_outcome files "section-intelligence-config.json" h)
    as [(e & Hfile & ->)|(analyzer & h1 & ->)].
  - split; [reflexivity|]. split; [right; eauto|discriminate].
  - cbv [mret M_ret].
    match goal with
    | |- context [main_analyze_and_generate files ?g args h1] =>
        destruct (main_analyze_and_generate_raises files g args h1)
          as (e & h2 & ->)
    end.
    split; [reflexivity|]. split; [left; reflexivity|discriminate].
Qed.

(** X21: [save_section] asks the file system for the operations of its
    plan, in order: make the directory [sections], write the [.liquid]
    file, write the [.css] file, and write the [.js] file only when the
    script is not empty. It stops at the first operation that raises, so
    what it has asked is always a prefix of the plan: the whole plan when it
    returns, and up to the failed operation when it raises. *)
Theorem save_section_follows_plan (fs : file_system) (this : self)
    (generated_section : GeneratedSection.t) (section_name : string)
    (asked : list fs_event) :
  let '(outcome, asked') :=
    save_section fs this generated_section section_name asked in
  exists done,
    asked' = asked ++ done
    /\ done `prefix_of` save_plan (theme_path this) section_name
                          generated_section
    /\ match outcome with
       | Ok _ =>
           done = save_plan (theme_path this) section_name generated_section
       | Raise e =>
           exists before event,
             done = before ++ [event]
             /\ fs (asked ++ before) event = Some e
       end.
Proof.
  unfold save_section, save_plan. cbv [mbind IO_bind perform mret IO_ret].
  set (dir := Join (Path (theme_path this)) "sections").
  set (e1 := Mkdir dir).
  set (e2 := WriteFile (Join dir (section_name +:+ ".liquid"))
               (GeneratedSection.liquid_content generated_section)).
  set (e3 := WriteFile (Join dir (section_name +:+ ".css"))
               (GeneratedSection.css_content generated_section)).
  set (e4 := WriteFile (Join dir (section_name +:+ ".js"))
               (GeneratedSection.js_content generated_section)).
  destruct (fs asked e1) as [x|] eqn:H1.
  { exists [e1]. split; [reflexivity|]. split.
    - eexists. reflexivity.
    - exists [], e1. rewrite app_nil_r. auto. }
  destruct (fs (asked ++ [e1]) e2) as [x|] eqn:H2.
  { exists [e1; e2]. split; [rewrite <- app_assoc; reflexivity|]. split.
    - eexists. reflexivity.
    - exists [e1], e2. auto. }
  destruct (fs ((asked ++ [e1]) ++ [e2]) e3) as [x|] eqn:H3.
  { exists [e1; e2; e3]. split; [rewrite <- !app_assoc; reflexivity|]. split.
    - eexists. reflexivity.
    - exists [e1; e2], e3. split; [reflexivity|].
      rewrite <- H3. f_equal. rewrite <- app_assoc. reflexivity. }
  destruct (text_truthy (GeneratedSection.js_content generated_section)).
  - destruct (fs (((asked ++ [e1]) ++ [e2]) ++ [e3]) e4) as [x|] eqn:H4.
    + exists [e1; e2; e3; e4]. split; [rewrite <- !app_assoc; reflexivity|].
      split; [reflexivity|].
      exists [e1; e2; e3], e4. split; [reflexivity|].
      rewrite <- H4. f_equal. rewrite <- !app_assoc. reflexivity.
    + exists [e1; e2; e3; e4]. split; [rewrite <- !app_assoc; reflexivity|].
      split; reflexivity.
  - exists [e1; e2; e3]. split; [rewrite <- !app_assoc; reflexivity|].
    split; [rewrite app_nil_r|]; reflexivity.
Qed.

(** C9: an exception of reading the catalog other than
    [FileNotFoundError] and [JSONDecodeError], such as the
    [UnicodeDecodeError] of a file whose bytes are not UTF-8, is not turned
    into an empty catalog: it leaves [_load_intelligence_config], then the
    constructor of the analyzer, which leaves the store as it was, and, for
    a valid section type, it leaves [main], whose [try] block the
    constructor of the generator precedes. *)
Theorem unreadable_catalog_aborts
    (files : string -> SectionTypeAnalyzer.read_outcome) (fs : file_system)
    (args : Args.t) (h : heap) (asked : list fs_event) (e : exn) :
  files "section-intelligence-config.json"
  = SectionTypeAnalyzer.OtherFailure e ->
  SectionTypeAnalyzer._load_intelligence_config files
    "section-intelligence-config.json" = Raise e
  /\ SectionTypeAnalyzer.__init__ files "section-intelligence-config.json" h
     = (Raise e, h)
  /\ (existsb (String.eqb (Args.type args)) valid_types = true ->
      main files fs args h asked = (Uncaught e, h, asked)).
Proof.
  intros Hfile.
  assert (Hload : SectionTypeAnalyzer._load_intelligence_config files
                    "section-intelligence-config.json" = Raise e)
    by (unfold SectionTypeAnalyzer._load_intelligence_config;
        rewrite Hfile; reflexivity).
  assert (Hinit : SectionTypeAnalyzer.__init__ files
                    "section-intelligence-config.json" h = (Raise e, h))
    by (unfold SectionTypeAnalyzer.__init__; rewrite Hload; reflexivity).
  split; [exact Hload|]. split; [exact Hinit|].
  intros Hvalid. unfold main. rewrite Hvalid. cbn [negb].
  unfold SectionGenerator.__init__. cbv [mbind M_bind].
  rewrite Hinit. reflexivity.
Qed.

Lemma unreadable_catalog_aborts_witness :
  (fun _ : string => SectionTypeAnalyzer.OtherFailure UnicodeDecodeError)
    "section-intelligence-config.json"
  = SectionTypeAnalyzer.OtherFailure UnicodeDecodeError
  /\ existsb (String.eqb (Args.type Samples.hero_args)) valid_types = true
  /\ SectionTypeAnalyzer.__init__
       (fun _ => SectionTypeAnalyzer.OtherFailure UnicodeDecodeError)
       "section-intelligence-config.json" []
     = (Raise UnicodeDecodeError, [])
  /\ main (fun _ => SectionTypeAnalyzer.OtherFailure UnicodeDecodeError)
       (fun _ _ => None) Samples.hero_args [] []
     = (Uncaught UnicodeDecodeError, [], []).
Proof.
  split; [reflexivity|]. split; [reflexivity|].
  destruct (unreadable_catalog_aborts
              (fun _ => SectionTypeAnalyzer.OtherFailure UnicodeDecodeError)
              (fun _ _ => None) Samples.hero_args [] [] UnicodeDecodeError
              eq_refl)
    as (_ & Hinit & Hmain).
  split; [exact Hinit|]. exact (Hmain eq_refl).
Defined.

End generation_and_main.
